(** * exchange-rate-service: the rate-access coordinator

    A shallow embedding of the Go service's repository layer
    ([internal/repository]: [rateRepository], [InMemoryCache], [RedisCache],
    [OpenERAPIClient]), of its service layer ([internal/service]:
    [exchangeService]), of the error package ([internal/errors]) and of the
    time-series endpoint of [internal/transport], followed by the properties
    the specification states about them.

    Conventions.
    - [float64] is Rocq's primitive binary64 float; [time.Duration] is an
      integer number of nanoseconds; [time.Time] is an instant in UTC,
      counted in seconds since the Unix epoch.
    - A Go function returning [(T, error)] returns [GoError + T].
    - The world outside the process (cache backend, network, clock) is an
      abstract state [St]; interface values are records of operations over
      it.  Every call the repository makes through an interface, and every
      log line, is appended to a trace, so that "the provider is not called"
      is a statement about the trace.
    - A nil-pointer dereference is the outcome [Panicked]. *)

From Stdlib Require Import ZArith Floats Lia Ascii.
From stdpp Require Import base option list gmap strings pretty.

Set Warnings "-inexact-float,-register-all".
Open Scope Z_scope.

(* ================================================================== *)
(** ** Go strings and formatting *)

Module GoString.

(** [strings.ToLower] keeps an ASCII-only string's non-letters and maps
    ['A'..'Z'] to ['a'..'z']; for a string with a byte >= 0x80 it maps
    [unicode.ToLower] over the runes, which is left to a parameter. *)
Definition isASCII (s : string) : bool :=
  forallb (fun c => (Ascii.nat_of_ascii c <? 128)%nat) (String.list_ascii_of_string s).

Definition lowerByte (c : ascii) : ascii :=
  let n := Ascii.nat_of_ascii c in
  if ((65 <=? n) && (n <=? 90))%nat then Ascii.ascii_of_nat (n + 32) else c.

Fixpoint mapBytes (f : ascii -> ascii) (s : string) : string :=
  match s with
  | EmptyString => EmptyString
  | String c r => String (f c) (mapBytes f r)
  end.

Definition ToLower (unicodeLower : string -> string) (s : string) : string :=
  if isASCII s then mapBytes lowerByte s else unicodeLower s.

(** The verb [%d] of [fmt.Sprintf]. *)
Definition itoa (n : Z) : string := pretty n.

Fixpoint zeros (n : nat) : string :=
  match n with
  | O => ""
  | S k => String "0" (zeros k)
  end.

Definition isDigit (c : ascii) : bool :=
  let n := Ascii.nat_of_ascii c in ((48 <=? n) && (n <=? 57))%nat.

Definition digitVal (c : ascii) : Z := Z.of_nat (Ascii.nat_of_ascii c) - 48.

End GoString.

(* ================================================================== *)
(** ** Package [errors] *)

Module Errors.

Inductive ErrorType :=
| ErrorTypeValidation
| ErrorTypeNotFound
| ErrorTypeUnauthorized
| ErrorTypeForbidden
| ErrorTypeInternal
| ErrorTypeProvider
| ErrorTypeCache.

Definition ErrorType_string (t : ErrorType) : string :=
  match t with
  | ErrorTypeValidation => "VALIDATION_ERROR"
  | ErrorTypeNotFound => "NOT_FOUND"
  | ErrorTypeUnauthorized => "UNAUTHORIZED"
  | ErrorTypeForbidden => "FORBIDDEN"
  | ErrorTypeInternal => "INTERNAL_ERROR"
  | ErrorTypeProvider => "PROVIDER_ERROR"
  | ErrorTypeCache => "CACHE_ERROR"
  end.

(** A value of Go's [error] interface, by dynamic type: the string error
    of [errors.New] and of [fmt.Errorf] without [%w] (errors of the
    libraries are such values too), the wrapping error of [fmt.Errorf]
    with [%w], and this package's [*AppError]. *)
Inductive GoError :=
| errorString (s : string)
| wrapError (msg : string) (err : GoError)
| appError (Type_ : ErrorType) (Message Code Details : string)
           (Err : option GoError).

Record AppError := mkAppError {
  Type_ : ErrorType;
  Message : string;
  Code : string;
  Details : string;
  Err : option GoError
}.

(** The type assertion of an [error] to a pointer to [AppError]. *)
Definition asAppError (e : GoError) : option AppError :=
  match e with
  | appError t m c d u => Some (mkAppError t m c d u)
  | _ => None
  end.

Definition ofAppError (a : AppError) : GoError :=
  appError (Type_ a) (Message a) (Code a) (Details a) (Err a).

(** The method [Error()]. *)
Fixpoint Error (e : GoError) : string :=
  match e with
  | errorString s => s
  | wrapError msg _ => msg
  | appError t m _ _ (Some u) =>
      ErrorType_string t +:+ ": " +:+ m +:+ " (" +:+ Error u +:+ ")"
  | appError t m _ _ None => ErrorType_string t +:+ ": " +:+ m
  end.

Definition Unwrap (e : GoError) : option GoError :=
  match e with
  | errorString _ => None
  | wrapError _ u => Some u
  | appError _ _ _ _ u => u
  end.

(** [fmt.Errorf(prefix + "%w", err)]. *)
Definition Errorf_w (prefix : string) (err : GoError) : GoError :=
  wrapError (prefix +:+ Error err) err.

Definition NewValidationError (message details : string) : GoError :=
  appError ErrorTypeValidation message "" details None.

Definition NewNotFoundError (message : string) : GoError :=
  appError ErrorTypeNotFound message "" "" None.

Definition NewInternalError (message : string) (err : option GoError) : GoError :=
  appError ErrorTypeInternal message "" "" err.

Definition NewProviderError (message : string) (err : option GoError) : GoError :=
  appError ErrorTypeProvider message "" "" err.

Definition NewCacheError (message : string) (err : option GoError) : GoError :=
  appError ErrorTypeCache message "" "" err.

Definition GetHTTPStatusCode (err : GoError) : Z :=
  match asAppError err with
  | Some a =>
      match Type_ a with
      | ErrorTypeValidation => 400
      | ErrorTypeNotFound => 404
      | ErrorTypeUnauthorized => 401
      | ErrorTypeForbidden => 403
      | ErrorTypeProvider => 503
      | ErrorTypeCache => 503
      | ErrorTypeInternal => 500
      end
  | None => 500
  end.

Definition IsNotFoundError (err : GoError) : bool :=
  match asAppError err with
  | Some a => match Type_ a with ErrorTypeNotFound => true | _ => false end
  | None => false
  end.

Definition IsValidationError (err : GoError) : bool :=
  match asAppError err with
  | Some a => match Type_ a with ErrorTypeValidation => true | _ => false end
  | None => false
  end.

(** The kind an error carries, when it carries one. *)
Definition kindOf (err : GoError) : option ErrorType :=
  Type_ <$> asAppError err.

End Errors.
Export Errors.

(* ================================================================== *)
(** ** Package [time], as far as the service uses it *)

Module GoTime.

(** Nanoseconds. *)
Definition Duration := Z.
Definition Second : Duration := 1000000000.
Definition Minute : Duration := 60 * Second.
Definition Hour : Duration := 60 * Minute.

(** Seconds since 1970-01-01T00:00:00 UTC. *)
Definition Time := Z.

Definition secondsPerDay : Z := 86400.

Definition Before (t u : Time) : bool := t <? u.
Definition After (t u : Time) : bool := u <? t.
(** [t.Add(d)] for a duration of whole seconds. *)
Definition Add (t : Time) (d : Duration) : Time := t + d / Second.

Definition isLeap (y : Z) : bool :=
  (y mod 4 =? 0) && (negb (y mod 100 =? 0) || (y mod 400 =? 0)).

Definition daysIn (m y : Z) : Z :=
  if m =? 2 then (if isLeap y then 29 else 28)
  else if (m =? 4) || (m =? 6) || (m =? 9) || (m =? 11) then 30
  else 31.

(** Day number of a civil date of the proleptic Gregorian calendar. *)
Definition daysFromCivil (y m d : Z) : Z :=
  let y' := if m <=? 2 then y - 1 else y in
  let era := y' / 400 in
  let yoe := y' - era * 400 in
  let mp := if 2 <? m then m - 3 else m + 9 in
  let doy := (153 * mp + 2) / 5 + d - 1 in
  let doe := yoe * 365 + yoe / 4 - yoe / 100 + doy in
  era * 146097 + doe - 719468.

Definition civilFromDays (z : Z) : Z * Z * Z :=
  let z' := z + 719468 in
  let era := z' / 146097 in
  let doe := z' - era * 146097 in
  let yoe := (doe - doe / 1460 + doe / 36524 - doe / 146096) / 365 in
  let doy := doe - (365 * yoe + yoe / 4 - yoe / 100) in
  let mp := (5 * doy + 2) / 153 in
  let d := doy - (153 * mp + 2) / 5 + 1 in
  let m := if mp <? 10 then mp + 3 else mp - 9 in
  let y := yoe + era * 400 in
  (if m <=? 2 then y + 1 else y, m, d).

(** [time.Date(y, m, d, 0, 0, 0, 0, time.UTC)] and [t.Date()]. *)
Definition Date (y m d : Z) : Time := daysFromCivil y m d * secondsPerDay.
Definition civil (t : Time) : Z * Z * Z := civilFromDays (t / secondsPerDay).

(** [appendInt] of the formatter: sign, zero padding to [width], digits. *)
Definition appendInt (x : Z) (width : nat) : string :=
  let ds := GoString.itoa (Z.abs x) in
  (if x <? 0 then "-" else "") +:+
  GoString.zeros (width - String.length ds) +:+ ds.

(** [t.Format("2006-01-02")]. *)
Definition Format (t : Time) : string :=
  let '(y, m, d) := civil t in
  appendInt y 4 +:+ "-" +:+ appendInt m 2 +:+ "-" +:+ appendInt d 2.

Definition num2 (a b : ascii) : option Z :=
  if GoString.isDigit a && GoString.isDigit b
  then Some (10 * GoString.digitVal a + GoString.digitVal b) else None.

Definition num4 (a b c d : ascii) : option Z :=
  hi ← num2 a b; lo ← num2 c d; Some (100 * hi + lo).

(** The checks [time.Parse] makes once the fields are read. *)
Definition checked (y m d : Z) : option Time :=
  if (m <=? 0) || (12 <? m) then None
  else if (d <? 1) || (daysIn m y <? d) then None
  else Some (Date y m d).

(** [time.Parse] for a layout year-month-day with separator [sep]:
    ["2006-01-02"] and ["2006/01/02"]. *)
Definition ParseYMD (sep : ascii) (s : string) : option Time :=
  match String.list_ascii_of_string s with
  | [y1; y2; y3; y4; s1; m1; m2; s2; d1; d2] =>
      if Ascii.eqb s1 sep && Ascii.eqb s2 sep then
        y ← num4 y1 y2 y3 y4; m ← num2 m1 m2; d ← num2 d1 d2; checked y m d
      else None
  | _ => None
  end.

(** [time.Parse] for a layout day-month-year: ["02-01-2006"] and
    ["02/01/2006"]. *)
Definition ParseDMY (sep : ascii) (s : string) : option Time :=
  match String.list_ascii_of_string s with
  | [d1; d2; s1; m1; m2; s2; y1; y2; y3; y4] =>
      if Ascii.eqb s1 sep && Ascii.eqb s2 sep then
        d ← num2 d1 d2; m ← num2 m1 m2; y ← num4 y1 y2 y3 y4; checked y m d
      else None
  | _ => None
  end.

(** [time.Parse("2006-01-02", s)]. *)
Definition Parse (s : string) : option Time := ParseYMD "-" s.

(** The ten digits, and whether [appendInt] writes a number read from two
    or from four of them with the same characters. *)
Definition digits : list ascii :=
  ["0"; "1"; "2"; "3"; "4"; "5"; "6"; "7"; "8"; "9"]%char.

Definition writes2 (a b : ascii) : bool :=
  String.eqb (appendInt (10 * GoString.digitVal a + GoString.digitVal b) 2)
             (String a (String b "")).

Definition writes4 (a b c d : ascii) : bool :=
  String.eqb
    (appendInt (100 * (10 * GoString.digitVal a + GoString.digitVal b) +
                (10 * GoString.digitVal c + GoString.digitVal d)) 4)
    (String a (String b (String c (String d "")))).

End GoTime.
Export GoTime.

(* ================================================================== *)
(** ** Package [models] *)

Module Currency.
Record t := mk {
  Code : string;
  Name : string;
  Symbol : string;
  IsBase : bool;
  IsSupported : bool
}.
End Currency.

Module ExchangeRate.
Record t := mk {
  BaseCurrency : string;
  TargetCurrency : string;
  Rate : float;
  Provider : string;
  FetchedAt : Time;
  IsStale : bool;
  TTL : Z
}.
End ExchangeRate.

Module ConversionRequest.
Record t := mk {
  FromCurrency : string;
  ToCurrency : string;
  Amount : float;
  Date : string
}.
End ConversionRequest.

Module ConversionResponse.
Record t := mk {
  FromCurrency : string;
  ToCurrency : string;
  Amount : float;
  ConvertedAmount : float;
  Rate : float;
  Provider : string;
  FetchedAt : Time
}.
End ConversionResponse.

Module HistoricalRate.
Record t := mk {
  BaseCurrency : string;
  TargetCurrency : string;
  Rate : float;
  Date : Time;
  Provider : string;
  FetchedAt : Time
}.
End HistoricalRate.

Module OpenERAPIResponse.
Record t := mk {
  Result : string;
  Provider : string;
  Documentation : string;
  TermsOfUse : string;
  TimeLastUpdateUnix : Z;
  TimeLastUpdateUTC : string;
  TimeNextUpdateUnix : Z;
  TimeNextUpdateUTC : string;
  TimeEOLUnix : Z;
  BaseCode : string;
  Rates : gmap string float
}.
End OpenERAPIResponse.

Module HealthResponse.
Record t := mk {
  Status : string;
  Timestamp : Time;
  Providers : gmap string string;
  Cache : string
}.
End HealthResponse.

(** The zero value of [time.Time]: January 1 of year 1. *)
Definition zeroTime : Time := Date 1 1 1.

(* ================================================================== *)
(** ** Package [configs] *)

Record ServerConfig := {
  Port : string;
  ShutdownTimeout : Duration
}.

Record RedisConfig := {
  Addr : string;
  Password : string;
  DB : Z
}.

Record ProviderConfig := {
  cfg_Name : string;
  cfg_BaseURL : string;
  cfg_APIKey : string;
  cfg_Timeout : Duration;
  cfg_Priority : Z
}.

Record Config := {
  Server : ServerConfig;
  Redis : RedisConfig;
  Providers : ProviderConfig
}.

(* ================================================================== *)
(** ** Values that cross the cache interface, and the trace *)

(** What the repository hands to [Cache.Set] as [interface{}]. *)
Inductive CacheValue :=
| VRate (r : ExchangeRate.t)
| VHist (h : HistoricalRate.t)
| VCurrencies (l : list Currency.t).

(** The destination pointer handed to [Cache.Get], by its type. *)
Inductive Dest := DRate | DHist | DCurrencies.

Definition denote (d : Dest) : Type :=
  match d with
  | DRate => ExchangeRate.t
  | DHist => HistoricalRate.t
  | DCurrencies => list Currency.t
  end.

(** A value given to [logger.Log]. *)
Inductive LogVal :=
| LStr (s : string)
| LErr (e : GoError)
| LFloat (f : float).

Inductive Event :=
| EvCacheGet (key : string)
| EvCacheSet (key : string) (value : CacheValue) (expiration : Duration)
| EvCachePing
| EvProviderGetLatestRate (base target : string)
| EvProviderGetHistoricalRate (base target : string) (date : Time)
| EvProviderGetSupportedCurrencies
| EvProviderHealthCheck
| EvLog (keyvals : list (string * LogVal)).

Definition isProviderCall (e : Event) : bool :=
  match e with
  | EvProviderGetLatestRate _ _ | EvProviderGetHistoricalRate _ _ _
  | EvProviderGetSupportedCurrencies | EvProviderHealthCheck => true
  | _ => false
  end.

Definition isCacheCall (e : Event) : bool :=
  match e with
  | EvCacheGet _ | EvCacheSet _ _ _ | EvCachePing => true
  | _ => false
  end.



(** The expiration of every cache write in a trace. *)
Definition expirations (tr : list Event) : list Duration :=
  omap (fun e => match e with EvCacheSet _ _ d => Some d | _ => None end) tr.

Definition providerCalls (tr : list Event) : nat :=
  length (List.filter isProviderCall tr).

Definition cacheCalls (tr : list Event) : nat :=
  length (List.filter isCacheCall tr).


Inductive Outcome (A : Type) :=
| Returned (a : A)
| Panicked.
Arguments Returned {A} a.
Arguments Panicked {A}.

Declare Scope go_scope.
Delimit Scope go_scope with go.

Section Program.

(** The state of everything outside the process. *)
Context {St : Type}.

(* ---------------------------------------------------------------- *)
(** *** Interfaces *)

(** [repository.Cache]. *)
Record Cache := {
  Cache_Get : forall d : Dest, string -> St -> (GoError + denote d) * St;
  Cache_Set : string -> CacheValue -> Duration -> St -> option GoError * St;
  Cache_Exists : string -> St -> (GoError + bool) * St;
  Cache_Ping : St -> option GoError * St
}.

(** The method set of the provider client ("OpenERAPIClient implements
    ProviderClient"): the five methods through which the repository
    uses its [client] field. *)
Record ProviderClient := {
  pc_Name : string;
  pc_GetLatestRate : string -> string -> St -> (GoError + ExchangeRate.t) * St;
  pc_GetHistoricalRate :
    string -> string -> Time -> St -> (GoError + HistoricalRate.t) * St;
  pc_GetSupportedCurrencies : St -> (GoError + list Currency.t) * St;
  pc_HealthCheck : St -> option GoError * St
}.

(** An HTTP response: its status and what decoding its body as JSON
    into an [OpenERAPIResponse] gives. *)
Record Response := {
  StatusCode : Z;
  Body : GoError + OpenERAPIResponse.t
}.

(** [*http.Client]: [Do] of a GET request for a URL. *)
Record HTTPClient := {
  Do : string -> St -> (GoError + Response) * St
}.

(** [*redis.Client], with the result of each command. *)
Record RedisClient := {
  redis_Get : string -> St -> (GoError + string) * St;
  redis_Set : string -> string -> Duration -> St -> option GoError * St;
  redis_Exists : string -> St -> (GoError + Z) * St;
  redis_Ping : St -> option GoError * St
}.

(** The libraries the program is linked with. *)
Record Externals := {
  (** [unicode.ToLower] mapped over a string that is not ASCII *)
  unicodeLower : string -> string;
  (** the error of [http.NewRequestWithContext] for a GET of a URL *)
  NewRequestError : string -> option GoError;
  (** [&http.Client{Timeout: t}] *)
  NewHTTPClient : Duration -> HTTPClient;
  (** [redis.NewClient] *)
  redis_NewClient : string -> string -> Z -> RedisClient;
  (** [time.Now] *)
  Now : St -> Time * St;
  json_Marshal : CacheValue -> GoError + string;
  json_Unmarshal : forall d : Dest, string -> GoError + denote d
}.

Variable X : Externals.

(* ---------------------------------------------------------------- *)
(** *** State, trace and panics *)

Record World := {
  ext : St;
  trace : list Event
}.

Definition M (A : Type) : Type := World -> Outcome A * World.

Definition ret {A} (a : A) : M A := fun w => (Returned a, w).

Definition bind {A B} (m : M A) (k : A -> M B) : M B :=
  fun w =>
    match m w with
    | (Returned a, w') => k a w'
    | (Panicked, w') => (Panicked, w')
    end.

Definition panic {A} : M A := fun w => (Panicked, w).

Definition emit (e : Event) : M unit :=
  fun w => (Returned tt, {| ext := ext w; trace := trace w ++ [e] |}).

Definition lift {A} (f : St -> A * St) : M A :=
  fun w => let '(a, s) := f (ext w) in
           (Returned a, {| ext := s; trace := trace w |}).

Local Notation "x <- m ;; k" := (bind m (fun x => k))
  (at level 100, m at next level, right associativity) : go_scope.
Local Notation "m ;;; k" := (bind m (fun _ => k))
  (at level 100, right associativity) : go_scope.
Local Open Scope go_scope.

(** [logger.Log(keyvals...)]; its error is never looked at. *)
Definition Log (keyvals : list (string * LogVal)) : M unit :=
  emit (EvLog keyvals).

(* ---------------------------------------------------------------- *)
(** *** [InMemoryCache] *)

Record InMemoryCache := {
  data : gmap string CacheValue
}.

Definition NewInMemoryCache : InMemoryCache := {| data := ∅ |}.

Definition InMemoryCache_Get (c : InMemoryCache) (d : Dest) (key : string)
    (s : St) : (GoError + denote d) * St :=
  (inl (errorString "in-memory cache not implemented"), s).

Definition InMemoryCache_Set (c : InMemoryCache) (key : string)
    (value : CacheValue) (expiration : Duration) (s : St)
    : option GoError * St :=
  (None, s).

Definition InMemoryCache_Exists (c : InMemoryCache) (key : string) (s : St)
    : (GoError + bool) * St :=
  (inr (bool_decide (is_Some (data c !! key))), s).

Definition InMemoryCache_Ping (c : InMemoryCache) (s : St)
    : option GoError * St :=
  (None, s).

Definition InMemoryCache_Cache (c : InMemoryCache) : Cache := {|
  Cache_Get := InMemoryCache_Get c;
  Cache_Set := InMemoryCache_Set c;
  Cache_Exists := InMemoryCache_Exists c;
  Cache_Ping := InMemoryCache_Ping c
|}.

(* ---------------------------------------------------------------- *)
(** *** [RedisCache] *)

Record RedisCache := {
  rc_client : RedisClient
}.

Definition NewRedisCache (addr password : string) (db : Z) (s : St)
    : (GoError + RedisCache) * St :=
  let client := redis_NewClient X addr password db in
  match redis_Ping client s with
  | (Some err, s') => (inl (Errorf_w "failed to connect to Redis: " err), s')
  | (None, s') => (inr {| rc_client := client |}, s')
  end.

Definition RedisCache_Get (r : RedisCache) (d : Dest) (key : string)
    (s : St) : (GoError + denote d) * St :=
  match redis_Get (rc_client r) key s with
  | (inl err, s') => (inl err, s')
  | (inr val, s') => (json_Unmarshal X d val, s')
  end.

Definition RedisCache_Set (r : RedisCache) (key : string)
    (value : CacheValue) (expiration : Duration) (s : St)
    : option GoError * St :=
  match json_Marshal X value with
  | inl err => (Some err, s)
  | inr jsonData => redis_Set (rc_client r) key jsonData expiration s
  end.

Definition RedisCache_Exists (r : RedisCache) (key : string) (s : St)
    : (GoError + bool) * St :=
  match redis_Exists (rc_client r) key s with
  | (inl err, s') => (inl err, s')
  | (inr result, s') => (inr (0 <? result), s')
  end.

Definition RedisCache_Ping (r : RedisCache) (s : St) : option GoError * St :=
  redis_Ping (rc_client r) s.

Definition RedisCache_Cache (r : RedisCache) : Cache := {|
  Cache_Get := RedisCache_Get r;
  Cache_Set := RedisCache_Set r;
  Cache_Exists := RedisCache_Exists r;
  Cache_Ping := RedisCache_Ping r
|}.

(* ---------------------------------------------------------------- *)
(** *** [OpenERAPIClient] *)

Record OpenERAPIClient := {
  oer_name : string;
  oer_baseURL : string;
  oer_client : HTTPClient
}.

Definition NewOpenERAPIClient (config : ProviderConfig) : OpenERAPIClient :=
  let timeout := cfg_Timeout config in
  let timeout := if timeout =? 0 then 30 * Second else timeout in
  {| oer_name := cfg_Name config;
     oer_baseURL := cfg_BaseURL config;
     oer_client := NewHTTPClient X timeout |}.

Definition OpenERAPIClient_Name (c : OpenERAPIClient) : string := oer_name c.

(** The request, the status check and the decoding that
    [GetLatestRate] and [GetSupportedCurrencies] share line by line. *)
Definition fetchLatest (c : OpenERAPIClient) (url : string) (s : St)
    : (GoError + OpenERAPIResponse.t) * St :=
  match NewRequestError X url with
  | Some err => (inl (Errorf_w "failed to create request: " err), s)
  | None =>
      match Do (oer_client c) url s with
      | (inl err, s') => (inl (Errorf_w "failed to make request: " err), s')
      | (inr resp, s') =>
          if negb (StatusCode resp =? 200) then
            (inl (errorString
                    ("API returned status " +:+ GoString.itoa (StatusCode resp))), s')
          else
            match Body resp with
            | inl err => (inl (Errorf_w "failed to decode response: " err), s')
            | inr apiResp =>
                if negb (String.eqb (OpenERAPIResponse.Result apiResp) "success")
                then (inl (errorString
                             ("API returned error result: " +:+
                              OpenERAPIResponse.Result apiResp)), s')
                else (inr apiResp, s')
            end
      end
  end.

Definition OpenERAPIClient_GetLatestRate (c : OpenERAPIClient)
    (baseCurrency targetCurrency : string) (s : St)
    : (GoError + ExchangeRate.t) * St :=
  let url := oer_baseURL c +:+ "/latest/" +:+ baseCurrency in
  match fetchLatest c url s with
  | (inl err, s') => (inl err, s')
  | (inr apiResp, s') =>
      match OpenERAPIResponse.Rates apiResp !! targetCurrency with
      | None =>
          (inl (errorString ("rate not found for " +:+ targetCurrency)), s')
      | Some rate =>
          let '(now, s'') := Now X s' in
          (inr {| ExchangeRate.BaseCurrency := baseCurrency;
                  ExchangeRate.TargetCurrency := targetCurrency;
                  ExchangeRate.Rate := rate;
                  ExchangeRate.Provider := oer_name c;
                  ExchangeRate.FetchedAt := now;
                  ExchangeRate.IsStale := false;
                  ExchangeRate.TTL := 0 |}, s'')
      end
  end.

Definition OpenERAPIClient_GetHistoricalRate (c : OpenERAPIClient)
    (baseCurrency targetCurrency : string) (date : Time) (s : St)
    : (GoError + HistoricalRate.t) * St :=
  (inl (errorString ("historical rates not supported by " +:+ oer_name c +:+
                     " in free tier")), s).

(** The order in which Go ranges over a map is not specified; the model
    takes the order of [map_to_list]. *)
Definition OpenERAPIClient_GetSupportedCurrencies (c : OpenERAPIClient)
    (s : St) : (GoError + list Currency.t) * St :=
  let url := oer_baseURL c +:+ "/latest/USD" in
  match fetchLatest c url s with
  | (inl err, s') => (inl err, s')
  | (inr apiResp, s') =>
      (inr ((fun kv : string * float =>
               {| Currency.Code := kv.1; Currency.Name := kv.1;
                  Currency.Symbol := ""; Currency.IsBase := false;
                  Currency.IsSupported := true |})
            <$> map_to_list (OpenERAPIResponse.Rates apiResp)), s')
  end.

Definition OpenERAPIClient_HealthCheck (c : OpenERAPIClient) (s : St)
    : option GoError * St :=
  let url := oer_baseURL c +:+ "/latest/USD" in
  match NewRequestError X url with
  | Some err => (Some (Errorf_w "failed to create health check request: " err), s)
  | None =>
      match Do (oer_client c) url s with
      | (inl err, s') => (Some (Errorf_w "health check failed: " err), s')
      | (inr resp, s') =>
          if negb (StatusCode resp =? 200) then
            (Some (errorString ("health check returned status " +:+
                                GoString.itoa (StatusCode resp))), s')
          else (None, s')
      end
  end.

Definition OpenERAPIClient_ProviderClient (c : OpenERAPIClient)
    : ProviderClient := {|
  pc_Name := OpenERAPIClient_Name c;
  pc_GetLatestRate := OpenERAPIClient_GetLatestRate c;
  pc_GetHistoricalRate := OpenERAPIClient_GetHistoricalRate c;
  pc_GetSupportedCurrencies := OpenERAPIClient_GetSupportedCurrencies c;
  pc_HealthCheck := OpenERAPIClient_HealthCheck c
|}.

(* ---------------------------------------------------------------- *)
(** *** [rateRepository] *)

(** [client] is a pointer and may be nil; the logger is the trace. *)
Record rateRepository := {
  repo_config : Config;
  repo_cache : Cache;
  repo_client : option ProviderClient
}.

Definition defaultBaseURL : string := "https://open.er-api.com/v6".
Definition defaultProviderName : string := "open.er-api.com".

Definition NewRateRepository (config : Config) : M rateRepository :=
  rc <- lift (NewRedisCache (Addr (Redis config)) (Password (Redis config))
                            (DB (Redis config))) ;;
  cache <- match rc with
           | inl err =>
               Log [("error", LErr err);
                    ("msg", LStr "failed to initialize Redis cache")] ;;;
               ret (InMemoryCache_Cache NewInMemoryCache)
           | inr redisCache => ret (RedisCache_Cache redisCache)
           end ;;
  let providerCfg := Providers config in
  let lower := GoString.ToLower (unicodeLower X) (cfg_Name providerCfg) in
  providerCfg <-
    (if negb (String.eqb lower "open.er-api.com") &&
        negb (String.eqb lower "openerapi")
     then
       let baseURL := if String.eqb (cfg_BaseURL providerCfg) ""
                      then defaultBaseURL else cfg_BaseURL providerCfg in
       let timeout := if cfg_Timeout providerCfg =? 0
                      then 10 * Second else cfg_Timeout providerCfg in
       Log [("warn", LStr "provider overridden to open.er-api.com")] ;;;
       ret {| cfg_Name := defaultProviderName;
              cfg_BaseURL := baseURL;
              cfg_APIKey := cfg_APIKey providerCfg;
              cfg_Timeout := timeout;
              cfg_Priority := cfg_Priority providerCfg |}
     else ret providerCfg) ;;
  let client := NewOpenERAPIClient providerCfg in
  ret {| repo_config := config;
         repo_cache := cache;
         repo_client := Some (OpenERAPIClient_ProviderClient client) |}.

(** Calls through the two dependencies, each recorded in the trace.  A
    method of a nil client dereferences it at once. *)
Definition cacheGet (r : rateRepository) (d : Dest) (key : string)
    : M (GoError + denote d) :=
  emit (EvCacheGet key) ;;; lift (Cache_Get (repo_cache r) d key).

Definition cacheSet (r : rateRepository) (key : string) (value : CacheValue)
    (expiration : Duration) : M (option GoError) :=
  emit (EvCacheSet key value expiration) ;;;
  lift (Cache_Set (repo_cache r) key value expiration).

Definition cachePing (r : rateRepository) : M (option GoError) :=
  emit EvCachePing ;;; lift (Cache_Ping (repo_cache r)).

Definition withClient {A} (r : rateRepository) (e : Event)
    (f : ProviderClient -> St -> A * St) : M A :=
  match repo_client r with
  | None => panic
  | Some c => emit e ;;; lift (f c)
  end.

Definition latestKey (baseCurrency targetCurrency : string) : string :=
  "rate:" +:+ baseCurrency +:+ ":" +:+ targetCurrency +:+ ":latest".

Definition historicalKey (baseCurrency targetCurrency : string) (date : Time)
    : string :=
  "rate:" +:+ baseCurrency +:+ ":" +:+ targetCurrency +:+ ":" +:+ Format date.

Definition currenciesKey : string := "currencies:supported".

Definition rateRepository_GetLatestRate (r : rateRepository)
    (baseCurrency targetCurrency : string) : M (GoError + ExchangeRate.t) :=
  let cacheKey := latestKey baseCurrency targetCurrency in
  got <- cacheGet r DRate cacheKey ;;
  match got with
  | inr rate =>
      Log [("msg", LStr "rate found in cache"); ("base", LStr baseCurrency);
           ("target", LStr targetCurrency)] ;;;
      ret (inr rate)
  | inl _ =>
      fetched <- withClient r (EvProviderGetLatestRate baseCurrency targetCurrency)
                   (fun c => pc_GetLatestRate c baseCurrency targetCurrency) ;;
      match fetched with
      | inl err => ret (inl err)
      | inr ratePtr =>
          serr <- cacheSet r cacheKey (VRate ratePtr) (5 * Minute) ;;
          match serr with
          | Some err =>
              Log [("error", LErr err); ("msg", LStr "failed to cache rate")]
          | None => ret tt
          end ;;;
          ret (inr ratePtr)
      end
  end.

Definition rateRepository_GetHistoricalRate (r : rateRepository)
    (baseCurrency targetCurrency : string) (date : Time)
    : M (GoError + HistoricalRate.t) :=
  let cacheKey := historicalKey baseCurrency targetCurrency date in
  got <- cacheGet r DHist cacheKey ;;
  match got with
  | inr rate =>
      Log [("msg", LStr "historical rate found in cache");
           ("base", LStr baseCurrency); ("target", LStr targetCurrency);
           ("date", LStr (Format date))] ;;;
      ret (inr rate)
  | inl _ =>
      fetched <- withClient r
                   (EvProviderGetHistoricalRate baseCurrency targetCurrency date)
                   (fun c => pc_GetHistoricalRate c baseCurrency targetCurrency date) ;;
      match fetched with
      | inl err => ret (inl err)
      | inr ratePtr =>
          serr <- cacheSet r cacheKey (VHist ratePtr) (24 * Hour) ;;
          match serr with
          | Some err =>
              Log [("error", LErr err);
                   ("msg", LStr "failed to cache historical rate")]
          | None => ret tt
          end ;;;
          ret (inr ratePtr)
      end
  end.

Definition rateRepository_GetSupportedCurrencies (r : rateRepository)
    : M (GoError + list Currency.t) :=
  let cacheKey := currenciesKey in
  got <- cacheGet r DCurrencies cacheKey ;;
  match got with
  | inr currencies =>
      Log [("msg", LStr "supported currencies found in cache")] ;;;
      ret (inr currencies)
  | inl _ =>
      fetched <- withClient r EvProviderGetSupportedCurrencies
                   (fun c => pc_GetSupportedCurrencies c) ;;
      match fetched with
      | inl err => ret (inl err)
      | inr currencies =>
          serr <- cacheSet r cacheKey (VCurrencies currencies) (24 * Hour) ;;
          match serr with
          | Some err =>
              Log [("error", LErr err); ("msg", LStr "failed to cache currencies")]
          | None => ret tt
          end ;;;
          ret (inr currencies)
      end
  end.

Definition healthWord (err : option GoError) : string :=
  match err with
  | Some _ => "unhealthy"
  | None => "healthy"
  end.

Definition rateRepository_HealthCheck (r : rateRepository)
    : M (GoError + gmap string string) :=
  let providers : gmap string string := ∅ in
  perr <- cachePing r ;;
  let providers := <["cache" := healthWord perr]> providers in
  match repo_client r with
  | Some c =>
      herr <- (emit EvProviderHealthCheck ;;; lift (pc_HealthCheck c)) ;;
      ret (inr (<[pc_Name c := healthWord herr]> providers))
  | None =>
      ret (inr (<["open.er-api.com" := "unconfigured"]> providers))
  end.

(** [repository.RateRepository]. *)
Record RateRepository := {
  rr_GetLatestRate : string -> string -> M (GoError + ExchangeRate.t);
  rr_GetHistoricalRate : string -> string -> Time -> M (GoError + HistoricalRate.t);
  rr_GetSupportedCurrencies : M (GoError + list Currency.t);
  rr_HealthCheck : M (GoError + gmap string string)
}.

Definition rateRepository_RateRepository (r : rateRepository)
    : RateRepository := {|
  rr_GetLatestRate := rateRepository_GetLatestRate r;
  rr_GetHistoricalRate := rateRepository_GetHistoricalRate r;
  rr_GetSupportedCurrencies := rateRepository_GetSupportedCurrencies r;
  rr_HealthCheck := rateRepository_HealthCheck r
|}.

(* ---------------------------------------------------------------- *)
(** *** [exchangeService] *)

Record exchangeService := {
  svc_rateRepo : RateRepository
}.

Definition validateCurrencies (baseCurrency targetCurrency : string)
    : option GoError :=
  if String.eqb baseCurrency "" then
    Some (NewValidationError "base currency is required"
                             "base_currency cannot be empty")
  else if String.eqb targetCurrency "" then
    Some (NewValidationError "target currency is required"
                             "target_currency cannot be empty")
  else if String.eqb baseCurrency targetCurrency then
    Some (NewValidationError "currencies must be different"
            "base_currency and target_currency cannot be the same")
  else None.

Definition validateConversionRequest (req : ConversionRequest.t)
    : option GoError :=
  if String.eqb (ConversionRequest.FromCurrency req) "" then
    Some (NewValidationError "from currency is required"
                             "from_currency cannot be empty")
  else if String.eqb (ConversionRequest.ToCurrency req) "" then
    Some (NewValidationError "to currency is required"
                             "to_currency cannot be empty")
  else if (ConversionRequest.Amount req <=? 0)%float then
    Some (NewValidationError "amount must be positive"
                             "amount must be greater than 0")
  else if String.eqb (ConversionRequest.FromCurrency req)
                     (ConversionRequest.ToCurrency req) then
    Some (NewValidationError "currencies must be different"
            "from_currency and to_currency cannot be the same")
  else None.

Definition exchangeService_GetLatestRate (s : exchangeService)
    (baseCurrency targetCurrency : string) : M (GoError + ExchangeRate.t) :=
  Log [("method", LStr "GetLatestRate"); ("base", LStr baseCurrency);
       ("target", LStr targetCurrency)] ;;;
  match validateCurrencies baseCurrency targetCurrency with
  | Some err => ret (inl err)
  | None =>
      res <- rr_GetLatestRate (svc_rateRepo s) baseCurrency targetCurrency ;;
      match res with
      | inl err =>
          Log [("error", LErr err); ("method", LStr "GetLatestRate")] ;;;
          ret (inl err)
      | inr rate => ret (inr rate)
      end
  end.

(** The [interface{}] variable [rate] of [ConvertCurrency], by the
    dynamic type of what it holds. *)
Inductive anyRate :=
| anyHistorical (h : HistoricalRate.t)
| anyExchange (e : ExchangeRate.t).

Definition exchangeService_ConvertCurrency (s : exchangeService)
    (req : ConversionRequest.t) : M (GoError + ConversionResponse.t) :=
  Log [("method", LStr "ConvertCurrency");
       ("from", LStr (ConversionRequest.FromCurrency req));
       ("to", LStr (ConversionRequest.ToCurrency req));
       ("amount", LFloat (ConversionRequest.Amount req))] ;;;
  match validateConversionRequest req with
  | Some err => ret (inl err)
  | None =>
      let dated := negb (String.eqb (ConversionRequest.Date req) "") in
      let finish (res : GoError + anyRate) : M (GoError + ConversionResponse.t) :=
        match res with
        | inl err =>
            Log [("error", LErr err); ("method", LStr "ConvertCurrency")] ;;;
            ret (inl err)
        | inr rate =>
            let '(rateValue, provider, fetchedAt) :=
              if dated then
                match rate with
                | anyHistorical histRate =>
                    (HistoricalRate.Rate histRate,
                     HistoricalRate.Provider histRate,
                     HistoricalRate.FetchedAt histRate)
                | _ => (0%float, "", zeroTime)
                end
              else
                match rate with
                | anyExchange latestRate =>
                    (ExchangeRate.Rate latestRate,
                     ExchangeRate.Provider latestRate,
                     ExchangeRate.FetchedAt latestRate)
                | _ => (0%float, "", zeroTime)
                end in
            let convertedAmount :=
              (ConversionRequest.Amount req * rateValue)%float in
            ret (inr {|
              ConversionResponse.FromCurrency := ConversionRequest.FromCurrency req;
              ConversionResponse.ToCurrency := ConversionRequest.ToCurrency req;
              ConversionResponse.Amount := ConversionRequest.Amount req;
              ConversionResponse.ConvertedAmount := convertedAmount;
              ConversionResponse.Rate := rateValue;
              ConversionResponse.Provider := provider;
              ConversionResponse.FetchedAt := fetchedAt |})
        end in
      if dated then
        match Parse (ConversionRequest.Date req) with
        | None =>
            ret (inl (NewValidationError "invalid date format"
                        "date must be in YYYY-MM-DD format"))
        | Some date =>
            res <- rr_GetHistoricalRate (svc_rateRepo s)
                     (ConversionRequest.FromCurrency req)
                     (ConversionRequest.ToCurrency req) date ;;
            finish (sum_map id anyHistorical res)
        end
      else
        res <- rr_GetLatestRate (svc_rateRepo s)
                 (ConversionRequest.FromCurrency req)
                 (ConversionRequest.ToCurrency req) ;;
        finish (sum_map id anyExchange res)
  end.

Definition exchangeService_GetHistoricalRate (s : exchangeService)
    (baseCurrency targetCurrency : string) (date : Time)
    : M (GoError + HistoricalRate.t) :=
  Log [("method", LStr "GetHistoricalRate"); ("base", LStr baseCurrency);
       ("target", LStr targetCurrency); ("date", LStr (Format date))] ;;;
  match validateCurrencies baseCurrency targetCurrency with
  | Some err => ret (inl err)
  | None =>
      res <- rr_GetHistoricalRate (svc_rateRepo s) baseCurrency
               targetCurrency date ;;
      match res with
      | inl err =>
          Log [("error", LErr err); ("method", LStr "GetHistoricalRate")] ;;;
          ret (inl err)
      | inr rate => ret (inr rate)
      end
  end.

Definition exchangeService_GetSupportedCurrencies (s : exchangeService)
    : M (GoError + list Currency.t) :=
  Log [("method", LStr "GetSupportedCurrencies")] ;;;
  res <- rr_GetSupportedCurrencies (svc_rateRepo s) ;;
  match res with
  | inl err =>
      Log [("error", LErr err); ("method", LStr "GetSupportedCurrencies")] ;;;
      ret (inl err)
  | inr currencies => ret (inr currencies)
  end.

Definition exchangeService_HealthCheck (s : exchangeService)
    : M (GoError + HealthResponse.t) :=
  Log [("method", LStr "HealthCheck")] ;;;
  res <- rr_HealthCheck (svc_rateRepo s) ;;
  match res with
  | inl err =>
      Log [("error", LErr err); ("method", LStr "HealthCheck")] ;;;
      ret (inl err)
  | inr providers =>
      now <- lift (Now X) ;;
      ret (inr {| HealthResponse.Status := "healthy";
                  HealthResponse.Timestamp := now;
                  HealthResponse.Providers := providers;
                  HealthResponse.Cache := "connected" |})
  end.

(** [service.ExchangeService]. *)
Record ExchangeService := {
  es_GetLatestRate : string -> string -> M (GoError + ExchangeRate.t);
  es_ConvertCurrency : ConversionRequest.t -> M (GoError + ConversionResponse.t);
  es_GetHistoricalRate : string -> string -> Time -> M (GoError + HistoricalRate.t);
  es_GetSupportedCurrencies : M (GoError + list Currency.t);
  es_HealthCheck : M (GoError + HealthResponse.t)
}.

Definition exchangeService_ExchangeService (s : exchangeService)
    : ExchangeService := {|
  es_GetLatestRate := exchangeService_GetLatestRate s;
  es_ConvertCurrency := exchangeService_ConvertCurrency s;
  es_GetHistoricalRate := exchangeService_GetHistoricalRate s;
  es_GetSupportedCurrencies := exchangeService_GetSupportedCurrencies s;
  es_HealthCheck := exchangeService_HealthCheck s
|}.

Definition NewExchangeService (rateRepo : RateRepository) : ExchangeService :=
  exchangeService_ExchangeService {| svc_rateRepo := rateRepo |}.

(* ---------------------------------------------------------------- *)
(** *** Package [transport]: the time-series endpoint *)

Record GetHistoricalRatesRequest := {
  req_From : string;
  req_To : string;
  req_StartDate : string;
  req_EndDate : string
}.

Record GetHistoricalRatesResponse := {
  resp_Rates : list HistoricalRate.t;
  resp_Error : string
}.

(** The four layouts, tried in the order of the source. *)
Definition parseDate (dateStr : string) : GoError + Time :=
  if String.eqb dateStr "" then inl (errorString "date string is empty")
  else
    match ParseYMD "-" dateStr with
    | Some t => inr t
    | None =>
        match ParseYMD "/" dateStr with
        | Some t => inr t
        | None =>
            match ParseDMY "-" dateStr with
            | Some t => inr t
            | None =>
                match ParseDMY "/" dateStr with
                | Some t => inr t
                | None => inl (errorString ("invalid date format: " +:+ dateStr))
                end
            end
        end
    end.

(** The loop [for d := start; !d.After(end); d = d.Add(24 * time.Hour)];
    [n] bounds the iterations left. *)
Fixpoint historicalRatesLoop (svc : ExchangeService)
    (req : GetHistoricalRatesRequest) (end_ : Time) (n : nat) (d : Time)
    (rates : list HistoricalRate.t) : M GetHistoricalRatesResponse :=
  match n with
  | O => ret {| resp_Rates := rates; resp_Error := "" |}
  | S k =>
      if After d end_ then ret {| resp_Rates := rates; resp_Error := "" |}
      else
        res <- es_GetHistoricalRate svc (req_From req) (req_To req) d ;;
        match res with
        | inl rerr => ret {| resp_Rates := []; resp_Error := Error rerr |}
        | inr rate =>
            historicalRatesLoop svc req end_ k (Add d (24 * Hour))
                                (rates ++ [rate])
        end
  end.

(** The number of days from [start] to [end_], both included. *)
Definition iterations (start end_ : Time) : nat :=
  Z.to_nat ((end_ - start) / secondsPerDay + 1).

Definition makeGetHistoricalRatesEndpoint (svc : ExchangeService)
    (req : GetHistoricalRatesRequest) : M GetHistoricalRatesResponse :=
  match parseDate (req_StartDate req) with
  | inl err => ret {| resp_Rates := []; resp_Error := Error err |}
  | inr start =>
      match parseDate (req_EndDate req) with
      | inl err => ret {| resp_Rates := []; resp_Error := Error err |}
      | inr end_ =>
          if Before end_ start then
            ret {| resp_Rates := [];
                   resp_Error := "end_date must be after start_date" |}
          else
            historicalRatesLoop svc req end_ (iterations start end_) start []
      end
  end.

End Program.

Arguments World : clear implicits.
Arguments Cache : clear implicits.
Arguments ProviderClient : clear implicits.
Arguments HTTPClient : clear implicits.
Arguments RedisClient : clear implicits.
Arguments Externals : clear implicits.

(* ================================================================== *)
(** ** Runs and their traces *)

Section Runs.

Context {St : Type}.

(** The world after a run, given the state it ends in and the events it
    added. *)
Definition after (w : World St) (s : St) (evs : list Event) : World St :=
  {| ext := s; trace := trace w ++ evs |}.

(** The events a run added, from the worlds before and after it. *)
Definition added (w w' : World St) : list Event :=
  drop (length (trace w)) (trace w').

(** The log line of a failed cache write. *)
Definition cacheFailLog (msg : string) (serr : option GoError) : list Event :=
  match serr with
  | Some err => [EvLog [("error", LErr err); ("msg", LStr msg)]]
  | None => []
  end.

(** The log line with which [ConvertCurrency] starts. *)
Definition convertLog (req : ConversionRequest.t) : Event :=
  EvLog [("method", LStr "ConvertCurrency");
         ("from", LStr (ConversionRequest.FromCurrency req));
         ("to", LStr (ConversionRequest.ToCurrency req));
         ("amount", LFloat (ConversionRequest.Amount req))].

(** The error with which the client refuses historical rates. *)
Definition unsupportedError (name : string) : GoError :=
  errorString ("historical rates not supported by " +:+ name +:+ " in free tier").

(** The log line with which the service's [HealthCheck] starts. *)
Definition healthLog : Event := EvLog [("method", LStr "HealthCheck")].

End Runs.

(* ================================================================== *)
(** ** A concrete deployment, for evaluating the program *)

Module Scenario.

(** The outside world: a clock, a Redis server that is up or down and
    holds no keys, and the URLs requested from the upstream so far. *)
Record State := {
  clock : Time;
  redisUp : bool;
  requests : list string
}.

Definition refused : GoError := errorString "dial tcp: connection refused".

Definition redisClient : RedisClient State := {|
  redis_Get := fun _ s =>
    (inl (if redisUp s then errorString "redis: nil" else refused), s);
  redis_Set := fun _ _ _ s => (if redisUp s then None else Some refused, s);
  redis_Exists := fun _ s => (if redisUp s then inr 0 else inl refused, s);
  redis_Ping := fun s => (if redisUp s then None else Some refused, s)
|}.

(** An upstream that answers a URL by [answer]. *)
Definition httpClient (answer : string -> GoError + Response)
    : HTTPClient State := {|
  Do := fun url s =>
    (answer url,
     {| clock := clock s; redisUp := redisUp s;
        requests := requests s ++ [url] |})
|}.

Definition externals (answer : string -> GoError + Response)
    : Externals State := {|
  unicodeLower := fun s => s;
  NewRequestError := fun _ => None;
  NewHTTPClient := fun _ => httpClient answer;
  redis_NewClient := fun _ _ _ => redisClient;
  Now := fun s => (clock s, s);
  json_Marshal := fun _ => inl (errorString "json: unsupported value");
  json_Unmarshal := fun _ _ => inl (errorString "unexpected end of JSON input")
|}.

(** What [configs.Load] gives with no environment variable set. *)
Definition config : Config := {|
  Server := {| Port := "8080"; ShutdownTimeout := 30 * Second |};
  Redis := {| Addr := "localhost:6379"; Password := ""; DB := 0 |};
  Providers := {| cfg_Name := "open.er-api.com";
                  cfg_BaseURL := "https://open.er-api.com/v6";
                  cfg_APIKey := "";
                  cfg_Timeout := 10 * Second;
                  cfg_Priority := 1 |}
|}.

Definition apiBody (rates : gmap string float) : OpenERAPIResponse.t := {|
  OpenERAPIResponse.Result := "success";
  OpenERAPIResponse.Provider := "https://www.exchangerate-api.com";
  OpenERAPIResponse.Documentation := "";
  OpenERAPIResponse.TermsOfUse := "";
  OpenERAPIResponse.TimeLastUpdateUnix := 1707523200;
  OpenERAPIResponse.TimeLastUpdateUTC := "";
  OpenERAPIResponse.TimeNextUpdateUnix := 1707609600;
  OpenERAPIResponse.TimeNextUpdateUTC := "";
  OpenERAPIResponse.TimeEOLUnix := 0;
  OpenERAPIResponse.BaseCode := "USD";
  OpenERAPIResponse.Rates := rates
|}.

(** The upstream quotes one euro at 0.92 dollars. *)
Definition quoting (url : string) : GoError + Response :=
  inr {| StatusCode := 200; Body := inr (apiBody {[ "EUR" := 0.92%float ]}) |}.

(** The upstream answers 500 with a body that is not JSON. *)
Definition failing (url : string) : GoError + Response :=
  inr {| StatusCode := 500;
         Body := inl (errorString "invalid character '<' looking for beginning of value") |}.

(** The upstream cannot be reached. *)
Definition unreachable (url : string) : GoError + Response :=
  inl (errorString "Get: unsupported protocol scheme").

(** Saturday 10 February 2024, midnight UTC; Redis down. *)
Definition start : World State := {|
  ext := {| clock := 1707523200; redisUp := false; requests := [] |};
  trace := []
|}.

(** The repository [NewRateRepository] builds from [cfg], and the world
    it leaves. *)
Definition built (answer : string -> GoError + Response) (cfg : Config)
    : option (rateRepository (St := State)) * World State :=
  match NewRateRepository (externals answer) cfg start with
  | (Returned r, w) => (Some r, w)
  | (Panicked, w) => (None, w)
  end.

(** The repository the constructor builds from [config] while Redis is
    down: it falls back to the in-memory cache. *)
Definition repo (answer : string -> GoError + Response)
    : rateRepository (St := State) := {|
  repo_config := config;
  repo_cache := InMemoryCache_Cache NewInMemoryCache;
  repo_client :=
    Some (OpenERAPIClient_ProviderClient (externals answer)
            (NewOpenERAPIClient (externals answer) (Providers config)))
|}.

(** The repository it builds while Redis is up. *)
Definition redisRepo (answer : string -> GoError + Response)
    : rateRepository (St := State) := {|
  repo_config := config;
  repo_cache := RedisCache_Cache (externals answer) {| rc_client := redisClient |};
  repo_client :=
    Some (OpenERAPIClient_ProviderClient (externals answer)
            (NewOpenERAPIClient (externals answer) (Providers config)))
|}.

Definition service (answer : string -> GoError + Response)
    : exchangeService (St := State) :=
  {| svc_rateRepo := rateRepository_RateRepository (repo answer) |}.

(** The default configuration with a mistyped scheme in the base URL. *)
Definition misconfigured : Config := {|
  Server := Server config;
  Redis := Redis config;
  Providers := {| cfg_Name := "open.er-api.com";
                  cfg_BaseURL := "htps://open.er-api.com/v6";
                  cfg_APIKey := "";
                  cfg_Timeout := 10 * Second;
                  cfg_Priority := 1 |}
|}.

(** A provider client that does serve historical rates; the repository has
    none, and this one exercises the write-through of a historical rate. *)
Definition archive : ProviderClient State := {|
  pc_Name := "archive";
  pc_GetLatestRate := fun _ _ s => (inl (errorString "not offered"), s);
  pc_GetHistoricalRate := fun base target date s =>
    (inr (HistoricalRate.mk base target 0.93 date "archive" (clock s)), s);
  pc_GetSupportedCurrencies := fun s =>
    (inr [Currency.mk "USD" "USD" "" false true;
          Currency.mk "EUR" "EUR" "" false true], s);
  pc_HealthCheck := fun s => (None, s)
|}.

Definition archiveRepo : rateRepository (St := State) := {|
  repo_config := config;
  repo_cache := InMemoryCache_Cache NewInMemoryCache;
  repo_client := Some archive
|}.






(** The client the constructor builds from [config]. *)
Definition client (answer : string -> GoError + Response)
    : OpenERAPIClient (St := State) :=
  NewOpenERAPIClient (externals answer) (Providers config).

(** The world after one request for the dollar's rates. *)
Definition asked : State :=
  {| clock := 1707523200; redisUp := false;
     requests := ["https://open.er-api.com/v6/latest/USD"] |}.

(** A request for the dollar-euro series between two dates. *)
Definition timeseries (from to : string) : GetHistoricalRatesRequest := {|
  req_From := "USD"; req_To := "EUR";
  req_StartDate := from; req_EndDate := to
|}.

End Scenario.

(* ================================================================== *)
(** ** Package [errors], the remaining constructors *)

Definition NewUnauthorizedError (message : string) : GoError :=
  appError ErrorTypeUnauthorized message "" "" None.

Definition NewForbiddenError (message : string) : GoError :=
  appError ErrorTypeForbidden message "" "" None.

(** The status codes [GetHTTPStatusCode] can return. *)
Definition statusCodes : list Z := [400; 401; 403; 404; 500; 503].

(* ================================================================== *)
(** ** Package [configs]: [Load] *)

Section Configs.

(** [os.Getenv] (the empty string for a variable that is not set),
    [strconv.Atoi] and [time.ParseDuration]. *)
Variable Getenv : string -> string.
Variable Atoi : string -> option Z.
Variable ParseDuration : string -> option Duration.

Definition getEnv (key defaultValue : string) : string :=
  let value := Getenv key in
  if negb (String.eqb value "") then value else defaultValue.

Definition getEnvAsInt (key : string) (defaultValue : Z) : Z :=
  let value := Getenv key in
  if negb (String.eqb value "") then
    match Atoi value with
    | Some intValue => intValue
    | None => defaultValue
    end
  else defaultValue.

Definition getEnvAsDuration (key : string) (defaultValue : Duration) : Duration :=
  let value := Getenv key in
  if negb (String.eqb value "") then
    match ParseDuration value with
    | Some duration => duration
    | None => defaultValue
    end
  else defaultValue.

(** [Load]; the error it returns is always nil. *)
Definition Load : Config :=
  let port := getEnv "PORT" "8080" in
  let shutdownTimeout := getEnvAsDuration "SHUTDOWN_TIMEOUT" (30 * Second) in
  let redisAddr := getEnv "REDIS_ADDR" "localhost:6379" in
  let redisPassword := getEnv "REDIS_PASSWORD" "" in
  let redisDB := getEnvAsInt "REDIS_DB" 0 in
  let provider := {|
    cfg_Name := "open.er-api.com";
    cfg_BaseURL := getEnv "OPEN_ER_API_URL" "https://open.er-api.com/v6";
    cfg_APIKey := getEnv "OPEN_ER_API_KEY" "";
    cfg_Timeout := getEnvAsDuration "OPEN_ER_API_TIMEOUT" (10 * Second);
    cfg_Priority := 1 |} in
  {| Server := {| Port := port; ShutdownTimeout := shutdownTimeout |};
     Redis := {| Addr := redisAddr; Password := redisPassword; DB := redisDB |};
     Providers := provider |}.

End Configs.

(* ================================================================== *)
(** ** Package [api]: the handler of the bulk rates *)

Section Handlers.

Context {St : Type}.
Variable X : Externals St.

(** What a handler writes: [models.WriteSuccess] answers 200 with the
    data, [models.WriteError] answers a status with an error body; both
    stamp the time. *)
Inductive Reply (A : Type) :=
| ReplySuccess (data : A) (message : string) (timestamp : Time)
| ReplyError (statusCode : Z) (err code details : string) (timestamp : Time).
Arguments ReplySuccess {A} data message timestamp.
Arguments ReplyError {A} statusCode err code details timestamp.

Definition WriteSuccess {A} (data : A) (message : string) : M (Reply A) :=
  bind (lift (Now X)) (fun now => ret (ReplySuccess data message now)).

Definition WriteError {A} (statusCode : Z) (err code details : string)
    : M (Reply A) :=
  bind (lift (Now X)) (fun now => ret (ReplyError statusCode err code details now)).

Definition WriteInternalError {A} (message : string) : M (Reply A) :=
  WriteError 500 "Internal Server Error" "INTERNAL_ERROR" message.




End Handlers.

Arguments ReplySuccess {A} data message timestamp.
Arguments ReplyError {A} statusCode err code details timestamp.

(* ================================================================== *)
(** ** Package [api]: the handlers of health and of the time series *)

Section MoreHandlers.

Context {St : Type}.
Variable X : Externals St.


(** [Handlers.HealthCheck], from the address of the peer. *)
Definition Handlers_HealthCheck (svc : ExchangeService (St := St))
    (remoteAddr : string) : M (Reply HealthResponse.t) :=
  bind (Log [("method", LStr "HealthCheck"); ("remote_addr", LStr remoteAddr)])
    (fun _ =>
       bind (es_HealthCheck svc)
         (fun res =>
            match res with
            | inl err =>
                bind (Log [("error", LErr err); ("method", LStr "HealthCheck")])
                  (fun _ => WriteInternalError X "Health check failed")
            | inr health => WriteSuccess X health "Service is healthy"
            end)).




End MoreHandlers.

(* ================================================================== *)
(** ** A deployment with a Redis that stores *)

Module Stored.

(** The outside world: a clock and the keys Redis holds. *)
Record State := {
  clock : Time;
  store : gmap string string
}.

Definition redisClient : RedisClient State := {|
  redis_Get := fun key s =>
    match store s !! key with
    | Some val => (inr val, s)
    | None => (inl (errorString "redis: nil"), s)
    end;
  redis_Set := fun key val _ s =>
    (None, {| clock := clock s; store := <[key := val]> (store s) |});
  redis_Exists := fun key s =>
    (inr (if store s !! key is Some _ then 1 else 0), s);
  redis_Ping := fun s => (None, s)
|}.

Definition quote : ExchangeRate.t :=
  ExchangeRate.mk "USD" "EUR" 0.92 "open.er-api.com" 1707523200 false 0.

Definition document : string :=
  "{base_currency:USD,target_currency:EUR,rate:0.92}".

(** A codec that knows one document, the one of [quote]. *)
Definition marshal (v : CacheValue) : GoError + string :=
  match v with
  | VRate _ => inr document
  | _ => inl (errorString "json: unsupported value")
  end.

Definition unmarshal (d : Dest) (data : string) : GoError + denote d :=
  match d as d' return GoError + denote d' with
  | DRate =>
      if String.eqb data document then inr quote
      else inl (errorString "unexpected end of JSON input")
  | DHist => inl (errorString "unexpected end of JSON input")
  | DCurrencies => inl (errorString "unexpected end of JSON input")
  end.

Definition externals : Externals State := {|
  unicodeLower := fun s => s;
  NewRequestError := fun _ => None;
  NewHTTPClient := fun _ =>
    {| Do := fun url s => (Scenario.quoting url, s) |};
  redis_NewClient := fun _ _ _ => redisClient;
  Now := fun s => (clock s, s);
  json_Marshal := marshal;
  json_Unmarshal := unmarshal
|}.

Definition cache : RedisCache (St := State) := {| rc_client := redisClient |}.

Definition provider : ProviderClient State :=
  OpenERAPIClient_ProviderClient externals
    (NewOpenERAPIClient externals (Providers Scenario.config)).

Definition cold : World State :=
  {| ext := {| clock := 1707523200; store := ∅ |}; trace := [] |}.

End Stored.

(* ================================================================== *)
(** ** The days of a range *)

(** The instants the time-series loop visits: [n] days from [d] on. *)
Fixpoint daysFrom (d : Time) (n : nat) : list Time :=
  match n with
  | O => []
  | S k => d :: daysFrom (Add d (24 * Hour)) k
  end.

(** The canonical writing of a date read in one of the four layouts. *)
Definition ymd (y1 y2 y3 y4 m1 m2 d1 d2 : ascii) (sep : ascii) : string :=
  String y1 (String y2 (String y3 (String y4 (String sep
    (String m1 (String m2 (String sep (String d1 (String d2 ""))))))))).

Definition dmy (y1 y2 y3 y4 m1 m2 d1 d2 : ascii) (sep : ascii) : string :=
  String d1 (String d2 (String sep (String m1 (String m2 (String sep
    (String y1 (String y2 (String y3 (String y4 ""))))))))).

(* ================================================================== *)
(** ** What the constructor decides *)

Section Constructor.

Context {St : Type}.
Variable X : Externals St.

(** Whether the constructor accepts the configured provider name. *)
Definition accepted (name : string) : bool :=
  let lower := GoString.ToLower (unicodeLower X) name in
  String.eqb lower "open.er-api.com" || String.eqb lower "openerapi".

(** The provider configuration the constructor hands to the client. *)
Definition effectiveProvider (providerCfg : ProviderConfig) : ProviderConfig :=
  if accepted (cfg_Name providerCfg) then providerCfg
  else {| cfg_Name := defaultProviderName;
          cfg_BaseURL := if String.eqb (cfg_BaseURL providerCfg) ""
                         then defaultBaseURL else cfg_BaseURL providerCfg;
          cfg_APIKey := cfg_APIKey providerCfg;
          cfg_Timeout := if cfg_Timeout providerCfg =? 0
                         then 10 * Second else cfg_Timeout providerCfg;
          cfg_Priority := cfg_Priority providerCfg |}.

(** The log lines of the constructor. *)
Definition redisFailLog (perr : option GoError) : list Event :=
  match perr with
  | Some err =>
      [EvLog [("error", LErr (Errorf_w "failed to connect to Redis: " err));
              ("msg", LStr "failed to initialize Redis cache")]]
  | None => []
  end.

Definition overrideLog (name : string) : list Event :=
  if accepted name then []
  else [EvLog [("warn", LStr "provider overridden to open.er-api.com")]].

End Constructor.

(* ================================================================== *)
(** ** The log lines of the service *)

(** The line a service method logs when the repository returned an
    error. *)
Definition errorLog {A B : Type} (method : string) (out : Outcome (GoError + A) * B)
    : list Event :=
  match fst out with
  | Returned (inl err) => [EvLog [("error", LErr err); ("method", LStr method)]]
  | _ => []
  end.

(** The lines with which the service methods start. *)
Definition latestLog (base target : string) : Event :=
  EvLog [("method", LStr "GetLatestRate"); ("base", LStr base);
         ("target", LStr target)].

Definition historicalLog (base target : string) (date : Time) : Event :=
  EvLog [("method", LStr "GetHistoricalRate"); ("base", LStr base);
         ("target", LStr target); ("date", LStr (Format date))].

Definition currenciesLog : Event :=
  EvLog [("method", LStr "GetSupportedCurrencies")].

(* ================================================================== *)
(** * Properties *)

Section RepositoryRuns.

Context {St : Type}.
Implicit Types (r : rateRepository (St := St)) (w : World St).

Lemma added_after w s evs : added w (after w s evs) = evs.
Proof. unfold added, after; simpl. by rewrite drop_app_length. Qed.

(** One equation per method of the repository: the outcome, the final
    state and the events added, by the answers of the two dependencies. *)
Lemma rateRepository_GetLatestRate_run r base target w :
  rateRepository_GetLatestRate r base target w =
  let key := latestKey base target in
  match Cache_Get (repo_cache r) DRate key (ext w) with
  | (inr rate, s1) =>
      (Returned (inr rate),
       after w s1 [EvCacheGet key;
                   EvLog [("msg", LStr "rate found in cache");
                          ("base", LStr base); ("target", LStr target)]])
  | (inl _, s1) =>
      match repo_client r with
      | None => (Panicked, after w s1 [EvCacheGet key])
      | Some c =>
          match pc_GetLatestRate c base target s1 with
          | (inl err, s2) =>
              (Returned (inl err),
               after w s2 [EvCacheGet key; EvProviderGetLatestRate base target])
          | (inr rate, s2) =>
              match Cache_Set (repo_cache r) key (VRate rate) (5 * Minute) s2 with
              | (serr, s3) =>
                  (Returned (inr rate),
                   after w s3 ([EvCacheGet key;
                                EvProviderGetLatestRate base target;
                                EvCacheSet key (VRate rate) (5 * Minute)] ++
                               cacheFailLog "failed to cache rate" serr))
              end
          end
      end
  end.
Proof.
  unfold rateRepository_GetLatestRate, cacheGet, cacheSet, withClient, Log,
    bind, emit, lift, ret, panic, after; simpl.
  destruct (Cache_Get _ _ _ _) as [[e|rate] s1]; simpl.
  - destruct (repo_client r) as [c|]; simpl; [|done].
    destruct (pc_GetLatestRate _ _ _ _) as [[err|rate] s2]; simpl.
    + by rewrite <- app_assoc.
    + destruct (Cache_Set _ _ _ _ _) as [[err|] s3]; simpl;
        by rewrite <- !app_assoc.
  - by rewrite <- app_assoc.
Qed.

Lemma rateRepository_GetHistoricalRate_run r base target date w :
  rateRepository_GetHistoricalRate r base target date w =
  let key := historicalKey base target date in
  match Cache_Get (repo_cache r) DHist key (ext w) with
  | (inr rate, s1) =>
      (Returned (inr rate),
       after w s1 [EvCacheGet key;
                   EvLog [("msg", LStr "historical rate found in cache");
                          ("base", LStr base); ("target", LStr target);
                          ("date", LStr (Format date))]])
  | (inl _, s1) =>
      match repo_client r with
      | None => (Panicked, after w s1 [EvCacheGet key])
      | Some c =>
          match pc_GetHistoricalRate c base target date s1 with
          | (inl err, s2) =>
              (Returned (inl err),
               after w s2 [EvCacheGet key;
                           EvProviderGetHistoricalRate base target date])
          | (inr rate, s2) =>
              match Cache_Set (repo_cache r) key (VHist rate) (24 * Hour) s2 with
              | (serr, s3) =>
                  (Returned (inr rate),
                   after w s3 ([EvCacheGet key;
                                EvProviderGetHistoricalRate base target date;
                                EvCacheSet key (VHist rate) (24 * Hour)] ++
                               cacheFailLog "failed to cache historical rate" serr))
              end
          end
      end
  end.
Proof.
  unfold rateRepository_GetHistoricalRate, cacheGet, cacheSet, withClient,
    Log, bind, emit, lift, ret, panic, after; simpl.
  destruct (Cache_Get _ _ _ _) as [[e|rate] s1]; simpl.
  - destruct (repo_client r) as [c|]; simpl; [|done].
    destruct (pc_GetHistoricalRate _ _ _ _ _) as [[err|rate] s2]; simpl.
    + by rewrite <- app_assoc.
    + destruct (Cache_Set _ _ _ _ _) as [[err|] s3]; simpl;
        by rewrite <- !app_assoc.
  - by rewrite <- app_assoc.
Qed.

Lemma rateRepository_GetSupportedCurrencies_run r w :
  rateRepository_GetSupportedCurrencies r w =
  let key := currenciesKey in
  match Cache_Get (repo_cache r) DCurrencies key (ext w) with
  | (inr currencies, s1) =>
      (Returned (inr currencies),
       after w s1 [EvCacheGet key;
                   EvLog [("msg", LStr "supported currencies found in cache")]])
  | (inl _, s1) =>
      match repo_client r with
      | None => (Panicked, after w s1 [EvCacheGet key])
      | Some c =>
          match pc_GetSupportedCurrencies c s1 with
          | (inl err, s2) =>
              (Returned (inl err),
               after w s2 [EvCacheGet key; EvProviderGetSupportedCurrencies])
          | (inr currencies, s2) =>
              match Cache_Set (repo_cache r) key (VCurrencies currencies)
                              (24 * Hour) s2 with
              | (serr, s3) =>
                  (Returned (inr currencies),
                   after w s3 ([EvCacheGet key;
                                EvProviderGetSupportedCurrencies;
                                EvCacheSet key (VCurrencies currencies) (24 * Hour)] ++
                               cacheFailLog "failed to cache currencies" serr))
              end
          end
      end
  end.
Proof.
  unfold rateRepository_GetSupportedCurrencies, cacheGet, cacheSet,
    withClient, Log, bind, emit, lift, ret, panic, after; simpl.
  destruct (Cache_Get _ _ _ _) as [[e|rate] s1]; simpl.
  - destruct (repo_client r) as [c|]; simpl; [|done].
    destruct (pc_GetSupportedCurrencies _ _) as [[err|rate] s2]; simpl.
    + by rewrite <- app_assoc.
    + destruct (Cache_Set _ _ _ _ _) as [[err|] s3]; simpl;
        by rewrite <- !app_assoc.
  - by rewrite <- app_assoc.
Qed.

Lemma rateRepository_HealthCheck_run r w :
  rateRepository_HealthCheck r w =
  match Cache_Ping (repo_cache r) (ext w) with
  | (perr, s1) =>
      match repo_client r with
      | Some c =>
          match pc_HealthCheck c s1 with
          | (herr, s2) =>
              (Returned (inr (<[pc_Name c := healthWord herr]>
                                (<["cache" := healthWord perr]> ∅))),
               after w s2 [EvCachePing; EvProviderHealthCheck])
          end
      | None =>
          (Returned (inr (<["open.er-api.com" := "unconfigured"]>
                            (<["cache" := healthWord perr]> ∅))),
           after w s1 [EvCachePing])
      end
  end.
Proof.
  unfold rateRepository_HealthCheck, cachePing, bind, emit, lift, ret, after;
    simpl.
  destruct (Cache_Ping _ _) as [perr s1]; simpl.
  destruct (repo_client r) as [c|]; simpl; [|done].
  destruct (pc_HealthCheck _ _) as [herr s2]; simpl.
  by rewrite <- app_assoc.
Qed.

End RepositoryRuns.


Section ScenarioChecks.

Import Scenario.

Lemma built_repo answer :
  built answer config =
  (Some (repo answer),
   after start (ext start)
     [EvLog [("error", LErr (Errorf_w "failed to connect to Redis: " refused));
             ("msg", LStr "failed to initialize Redis cache")]]).
Proof. reflexivity. Qed.

Lemma built_redisRepo answer :
  NewRateRepository (externals answer) config
    {| ext := {| clock := 0; redisUp := true; requests := [] |}; trace := [] |} =
  (Returned (redisRepo answer),
   {| ext := {| clock := 0; redisUp := true; requests := [] |}; trace := [] |}).
Proof. reflexivity. Qed.

End ScenarioChecks.

Section LatestRate.

Context {St : Type}.
Implicit Types (r : rateRepository (St := St)) (w : World St).



End LatestRate.

Section LatestRateChecks.

Import Scenario.




End LatestRateChecks.

Section ServiceLayer.

Context {St : Type}.
Variable X : Externals St.
Implicit Types (s : exchangeService (St := St)) (w : World St).

Lemma validateCurrencies_same cur :
  exists err, validateCurrencies cur cur = Some err /\ IsValidationError err = true.
Proof.
  unfold validateCurrencies.
  destruct (String.eqb cur "") eqn:E; [by eexists|].
  rewrite String.eqb_refl. by eexists.
Qed.

Lemma validateConversionRequest_same req :
  ConversionRequest.FromCurrency req = ConversionRequest.ToCurrency req ->
  exists err, validateConversionRequest req = Some err /\
              IsValidationError err = true.
Proof.
  intros Heq. unfold validateConversionRequest.
  repeat (match goal with |- context [if ?b then _ else _] => destruct b eqn:? end;
          [by eexists|]).
  rewrite Heq, String.eqb_refl in *. discriminate.
Qed.

Lemma validateConversionRequest_amount req :
  (ConversionRequest.Amount req <=? 0)%float = true ->
  exists err, validateConversionRequest req = Some err /\
              IsValidationError err = true.
Proof.
  intros Hle. unfold validateConversionRequest. rewrite Hle.
  repeat (match goal with |- context [if ?b then _ else _] => destruct b eqn:? end;
          try by eexists).
Qed.

Lemma iterations_step d end_ :
  After d end_ = false ->
  iterations d end_ = S (iterations (Add d (24 * Hour)) end_).
Proof.
  unfold After, iterations, secondsPerDay, Add. intros H%Z.ltb_ge.
  change (24 * Hour / Second) with 86400.
  rewrite <- Z2Nat.inj_succ by (Z.div_mod_to_equations; lia).
  f_equal. Z.div_mod_to_equations; lia.
Qed.

(** The bound on the iterations is never the reason the loop stops. *)
Lemma historicalRatesLoop_fuel (svc : ExchangeService (St := St)) req end_ n :
  forall d rates w,
    (iterations d end_ <= n)%nat ->
    historicalRatesLoop svc req end_ n d rates w =
    historicalRatesLoop svc req end_ (iterations d end_) d rates w.
Proof.
  induction n as [|n IH]; intros d rates w Hn.
  - by replace (iterations d end_) with 0%nat by lia.
  - destruct (After d end_) eqn:Ha.
    + cbn [historicalRatesLoop]. rewrite Ha.
      destruct (iterations d end_); cbn [historicalRatesLoop]; by rewrite ?Ha.
    + rewrite (iterations_step d end_ Ha) in *.
      cbn [historicalRatesLoop]. rewrite Ha. unfold bind.
      destruct (es_GetHistoricalRate _ _ _ _ _) as [[[err|rate]|] w']; try done.
      apply IH. lia.
Qed.
(** C3: validation comes before the repository.  With base equal to
    target, [GetLatestRate] and [ConvertCurrency] fail with a validation
    error; with an amount at most zero, [ConvertCurrency] fails with a
    validation error; a range whose end date is before its start date is
    refused by the endpoint.  In each case, whatever the repository behind
    the service is, the world is left as it was, but for the one log line
    of the service: no cache and no provider was reached. *)
Theorem validation_precedes_repository :
  (forall s cur w, exists err,
      exchangeService_GetLatestRate s cur cur w =
        (Returned (inl err),
         after w (ext w) [EvLog [("method", LStr "GetLatestRate");
                                 ("base", LStr cur); ("target", LStr cur)]]) /\
      IsValidationError err = true) /\
  (forall s req w,
      ConversionRequest.FromCurrency req = ConversionRequest.ToCurrency req ->
      exists err,
        exchangeService_ConvertCurrency s req w =
          (Returned (inl err), after w (ext w) [convertLog req]) /\
        IsValidationError err = true) /\
  (forall s req w,
      (ConversionRequest.Amount req <=? 0)%float = true ->
      exists err,
        exchangeService_ConvertCurrency s req w =
          (Returned (inl err), after w (ext w) [convertLog req]) /\
        IsValidationError err = true) /\
  (forall (svc : ExchangeService (St := St)) req start end_ w,
      parseDate (req_StartDate req) = inr start ->
      parseDate (req_EndDate req) = inr end_ ->
      Before end_ start = true ->
      makeGetHistoricalRatesEndpoint svc req w =
        (Returned {| resp_Rates := [];
                     resp_Error := "end_date must be after start_date" |}, w)).
Proof.
  repeat split.
  - intros s cur w. destruct (validateCurrencies_same cur) as (err & Hv & Hk).
    exists err; split; [|done].
    unfold exchangeService_GetLatestRate, Log, bind, emit, ret, after; simpl.
    by rewrite Hv.
  - intros s req w Heq.
    destruct (validateConversionRequest_same req Heq) as (err & Hv & Hk).
    exists err; split; [|done].
    unfold exchangeService_ConvertCurrency, Log, bind, emit, ret, after; simpl.
    by rewrite Hv.
  - intros s req w Hle.
    destruct (validateConversionRequest_amount req Hle) as (err & Hv & Hk).
    exists err; split; [|done].
    unfold exchangeService_ConvertCurrency, Log, bind, emit, ret, after; simpl.
    by rewrite Hv.
  - intros svc req start end_ w Hs He Hb.
    unfold makeGetHistoricalRatesEndpoint. by rewrite Hs, He, Hb.
Qed.

(** C4: conversion arithmetic.  For a request that passes validation and
    whose rate is resolved (the latest rate when no date is given, the
    historical rate of the parsed date otherwise), the response carries the
    request's currencies and amount, the resolved rate's [Rate], [Provider]
    and [FetchedAt] as they are, and as [ConvertedAmount] the binary64
    product of the amount and that rate. *)
Theorem conversion_uses_resolved_rate s req w :
  validateConversionRequest req = None ->
  let from := ConversionRequest.FromCurrency req in
  let to := ConversionRequest.ToCurrency req in
  let amount := ConversionRequest.Amount req in
  let w0 := after w (ext w) [convertLog req] in
  (forall rate w1,
     ConversionRequest.Date req = "" ->
     rr_GetLatestRate (svc_rateRepo s) from to w0 = (Returned (inr rate), w1) ->
     exchangeService_ConvertCurrency s req w =
       (Returned (inr {|
          ConversionResponse.FromCurrency := from;
          ConversionResponse.ToCurrency := to;
          ConversionResponse.Amount := amount;
          ConversionResponse.ConvertedAmount :=
            (amount * ExchangeRate.Rate rate)%float;
          ConversionResponse.Rate := ExchangeRate.Rate rate;
          ConversionResponse.Provider := ExchangeRate.Provider rate;
          ConversionResponse.FetchedAt := ExchangeRate.FetchedAt rate |}), w1)) /\
  (forall date rate w1,
     ConversionRequest.Date req <> "" ->
     Parse (ConversionRequest.Date req) = Some date ->
     rr_GetHistoricalRate (svc_rateRepo s) from to date w0
       = (Returned (inr rate), w1) ->
     exchangeService_ConvertCurrency s req w =
       (Returned (inr {|
          ConversionResponse.FromCurrency := from;
          ConversionResponse.ToCurrency := to;
          ConversionResponse.Amount := amount;
          ConversionResponse.ConvertedAmount :=
            (amount * HistoricalRate.Rate rate)%float;
          ConversionResponse.Rate := HistoricalRate.Rate rate;
          ConversionResponse.Provider := HistoricalRate.Provider rate;
          ConversionResponse.FetchedAt := HistoricalRate.FetchedAt rate |}), w1)).
Proof.
  intros Hv; cbv zeta; split.
  - intros rate w1 Hd Hr.
    unfold exchangeService_ConvertCurrency, Log, bind, emit, ret; simpl.
    rewrite Hv, Hd; simpl.
    unfold after, convertLog in Hr. by rewrite Hr.
  - intros date rate w1 Hd Hp Hr.
    unfold exchangeService_ConvertCurrency, Log, bind, emit, ret; simpl.
    rewrite Hv. apply String.eqb_neq in Hd. rewrite Hd; simpl. rewrite Hp.
    unfold after, convertLog in Hr. by rewrite Hr.
Qed.

(** C10: when the repository's health check returns its map without an
    error, the service answers with the status "healthy" and the cache
    word "connected", whatever the map says about the cache and the
    provider; the map is passed on in [Providers]. *)
Theorem service_health_is_constant s w providers w1 :
  rr_HealthCheck (svc_rateRepo s) (after w (ext w) [healthLog])
    = (Returned (inr providers), w1) ->
  exchangeService_HealthCheck X s w =
    (Returned (inr {| HealthResponse.Status := "healthy";
                      HealthResponse.Timestamp := fst (Now X (ext w1));
                      HealthResponse.Providers := providers;
                      HealthResponse.Cache := "connected" |}),
     {| ext := snd (Now X (ext w1)); trace := trace w1 |}).
Proof.
  intros Hr.
  unfold exchangeService_HealthCheck, Log, bind, emit, lift, ret; simpl.
  unfold after, healthLog in Hr. rewrite Hr.
  by destruct (Now X (ext w1)).
Qed.

End ServiceLayer.

Section ServiceLayerChecks.

Import Scenario.

(** C3 at USD to USD, at the amount 0, and at the range from 2024-02-10
    back to 2024-02-01. *)
Lemma validation_precedes_repository_witness :
  (exists err,
     exchangeService_GetLatestRate (service quoting) "USD" "USD" start =
       (Returned (inl err),
        after start (ext start)
          [EvLog [("method", LStr "GetLatestRate");
                  ("base", LStr "USD"); ("target", LStr "USD")]]) /\
     IsValidationError err = true) /\
  (exists err,
     exchangeService_ConvertCurrency (service quoting)
       (ConversionRequest.mk "USD" "USD" 100 "") start =
       (Returned (inl err),
        after start (ext start)
          [convertLog (ConversionRequest.mk "USD" "USD" 100 "")]) /\
     IsValidationError err = true) /\
  (exists err,
     exchangeService_ConvertCurrency (service quoting)
       (ConversionRequest.mk "USD" "EUR" 0 "") start =
       (Returned (inl err),
        after start (ext start)
          [convertLog (ConversionRequest.mk "USD" "EUR" 0 "")]) /\
     IsValidationError err = true) /\
  makeGetHistoricalRatesEndpoint
    (exchangeService_ExchangeService (externals quoting) (service quoting))
    (timeseries "2024-02-10" "2024-02-01") start =
    (Returned {| resp_Rates := [];
                 resp_Error := "end_date must be after start_date" |}, start).
Proof.
  destruct (validation_precedes_repository (St := State))
    as (Hlatest & Hsame & Hamount & Hrange).
  split; [apply Hlatest|].
  split; [apply Hsame; reflexivity|].
  split; [apply Hamount; reflexivity|].
  apply (Hrange _ _ 1707523200 1706745600); reflexivity.
Defined.

(** C4 at 100 dollars and the rate 0.92: 92 euros. *)
Lemma conversion_uses_resolved_rate_witness :
  exchangeService_ConvertCurrency (service quoting)
    (ConversionRequest.mk "USD" "EUR" 100 "") start =
  (Returned (inr {|
     ConversionResponse.FromCurrency := "USD";
     ConversionResponse.ToCurrency := "EUR";
     ConversionResponse.Amount := 100;
     ConversionResponse.ConvertedAmount := 92;
     ConversionResponse.Rate := 0.92;
     ConversionResponse.Provider := "open.er-api.com";
     ConversionResponse.FetchedAt := 1707523200 |}),
   after start {| clock := 1707523200; redisUp := false;
                  requests := ["https://open.er-api.com/v6/latest/USD"] |}
     [convertLog (ConversionRequest.mk "USD" "EUR" 100 "");
      EvCacheGet "rate:USD:EUR:latest";
      EvProviderGetLatestRate "USD" "EUR";
      EvCacheSet "rate:USD:EUR:latest"
        (VRate (ExchangeRate.mk "USD" "EUR" 0.92 "open.er-api.com" 1707523200
                                false 0))
        (5 * Minute)]).
Proof.
  exact (proj1 (conversion_uses_resolved_rate (service quoting)
                  (ConversionRequest.mk "USD" "EUR" 100 "") start eq_refl)
           (ExchangeRate.mk "USD" "EUR" 0.92 "open.er-api.com" 1707523200 false 0)
           _ eq_refl eq_refl).
Defined.

(** C10 with Redis down and the upstream answering 500: both dependencies
    are unhealthy in the map, and the status is still healthy. *)
Lemma service_health_is_constant_witness :
  exchangeService_HealthCheck (externals failing)
    {| svc_rateRepo := rateRepository_RateRepository (redisRepo failing) |} start =
  (Returned (inr {|
     HealthResponse.Status := "healthy";
     HealthResponse.Timestamp := 1707523200;
     HealthResponse.Providers :=
       <["open.er-api.com" := "unhealthy"]> (<["cache" := "unhealthy"]> ∅);
     HealthResponse.Cache := "connected" |}),
   after start {| clock := 1707523200; redisUp := false;
                  requests := ["https://open.er-api.com/v6/latest/USD"] |}
     [healthLog; EvCachePing; EvProviderHealthCheck]).
Proof.
  exact (service_health_is_constant (externals failing)
           {| svc_rateRepo := rateRepository_RateRepository (redisRepo failing) |}
           start
           (<["open.er-api.com" := "unhealthy"]> (<["cache" := "unhealthy"]> ∅))
           (after start {| clock := 1707523200; redisUp := false;
                           requests := ["https://open.er-api.com/v6/latest/USD"] |}
              [healthLog; EvCachePing; EvProviderHealthCheck])
           eq_refl).
Defined.

End ServiceLayerChecks.

Section Health.

Context {St : Type}.
Variable X : Externals St.
Implicit Types (r : rateRepository (St := St)) (w : World St).

(** The constructor always returns, with a provider client whose name is
    either the configured one, accepted because it lower-cases to one of
    the two known names, or the default name. *)
Lemma NewRateRepository_returns cfg w :
  exists r w' c,
    NewRateRepository X cfg w = (Returned r, w') /\
    repo_client r = Some (OpenERAPIClient_ProviderClient X c) /\
    oer_name c <> "cache".
Proof.
  unfold NewRateRepository, bind, lift, Log, emit, ret; simpl.
  destruct (NewRedisCache _ _ _ _ _) as [[err|rc] s1]; simpl;
    destruct (negb (String.eqb _ "open.er-api.com") && negb (String.eqb _ "openerapi"))
      eqn:Hname; simpl;
    (do 3 eexists; split; [reflexivity|split; [reflexivity|simpl]]);
    try discriminate;
    intros Heq; rewrite Heq in Hname; vm_compute in Hname; discriminate.
Qed.

(** C5, as amended: the two dependencies are probed one after the other
    and reported under separate keys of the map, "cache" and the
    provider's name; each word is "unhealthy" exactly when that probe
    returned an error and "healthy" otherwise, whatever the other probe
    returned (the provider's name is not "cache": the constructor never
    produces that name).  A repository without a provider client reports
    "unconfigured" under "open.er-api.com"; the constructor always installs
    a client, so a provider whose configuration is wrong is probed like any
    other and reported by the outcome of the probe. *)
Theorem HealthCheck_statuses_independent r w :
  (forall c, repo_client r = Some c -> pc_Name c <> "cache" ->
     let ping := Cache_Ping (repo_cache r) (ext w) in
     let probe := pc_HealthCheck c (snd ping) in
     exists m,
       fst (rateRepository_HealthCheck r w) = Returned (inr m) /\
       m !! "cache" = Some (if fst ping is Some _ then "unhealthy" else "healthy") /\
       m !! pc_Name c = Some (if fst probe is Some _ then "unhealthy" else "healthy") /\
       size m = 2%nat) /\
  (repo_client r = None ->
     let ping := Cache_Ping (repo_cache r) (ext w) in
     exists m,
       fst (rateRepository_HealthCheck r w) = Returned (inr m) /\
       m !! "cache" = Some (if fst ping is Some _ then "unhealthy" else "healthy") /\
       m !! "open.er-api.com" = Some "unconfigured" /\
       size m = 2%nat) /\
  (forall cfg w0, exists r' w' c,
     NewRateRepository X cfg w0 = (Returned r', w') /\
     repo_client r' = Some (OpenERAPIClient_ProviderClient X c) /\
     pc_Name (OpenERAPIClient_ProviderClient X c) <> "cache").
Proof.
  split; [|split].
  - intros c Hc Hname; cbv zeta.
    rewrite rateRepository_HealthCheck_run, Hc.
    destruct (Cache_Ping _ _) as [perr s1]; cbn [fst snd].
    destruct (pc_HealthCheck _ _) as [herr s2]; cbn [fst snd].
    eexists; split; [reflexivity|].
    split; [|split].
    + rewrite lookup_insert_ne by done. rewrite lookup_insert_eq.
      by destruct perr.
    + rewrite lookup_insert_eq. by destruct herr.
    + rewrite map_size_insert_None.
      * by rewrite map_size_insert_None, map_size_empty by apply lookup_empty.
      * rewrite lookup_insert_ne by done. apply lookup_empty.
  - intros Hc; cbv zeta.
    rewrite rateRepository_HealthCheck_run, Hc.
    destruct (Cache_Ping _ _) as [perr s1]; cbn [fst snd].
    eexists; split; [reflexivity|].
    split; [|split].
    + rewrite lookup_insert_ne by done. rewrite lookup_insert_eq.
      by destruct perr.
    + by rewrite lookup_insert_eq.
    + rewrite map_size_insert_None.
      * by rewrite map_size_insert_None, map_size_empty by apply lookup_empty.
      * rewrite lookup_insert_ne by done. apply lookup_empty.
  - intros cfg w0. apply NewRateRepository_returns.
Qed.

End Health.

Section HealthChecks.

Import Scenario.

(** C5, as stated, fails for a provider whose configuration is wrong: with
    a mistyped scheme in the base URL (the name is the right one, so the
    constructor changes nothing) no request gets through, the provider is
    reported "unhealthy", and "unconfigured" appears nowhere in the map. *)
Lemma misconfigured_provider_is_unhealthy :
  exists r w m,
    NewRateRepository (externals unreachable) misconfigured start = (Returned r, w) /\
    fst (rateRepository_HealthCheck r w) = Returned (inr m) /\
    m !! "open.er-api.com" = Some "unhealthy" /\
    m !! "cache" = Some "healthy" /\
    (forall k, m !! k <> Some "unconfigured").
Proof.
  do 3 eexists. split; [reflexivity|]. split; [reflexivity|].
  split; [reflexivity|]. split; [reflexivity|].
  intros k Hk.
  apply lookup_insert_Some in Hk as [[_ Hk]|[_ Hk]]; [discriminate|].
  apply lookup_insert_Some in Hk as [[_ Hk]|[_ Hk]]; [discriminate|].
  by rewrite lookup_empty in Hk.
Qed.

(** The amended C5 with Redis down and the upstream up, and for a
    repository without a client. *)
Lemma HealthCheck_statuses_independent_witness :
  (exists m,
     fst (rateRepository_HealthCheck (redisRepo quoting) start) = Returned (inr m) /\
     m !! "cache" = Some "unhealthy" /\
     m !! "open.er-api.com" = Some "healthy" /\
     size m = 2%nat) /\
  (exists m,
     fst (rateRepository_HealthCheck
            {| repo_config := config;
               repo_cache := InMemoryCache_Cache NewInMemoryCache;
               repo_client := None |} start) = Returned (inr m) /\
     m !! "cache" = Some "healthy" /\
     m !! "open.er-api.com" = Some "unconfigured" /\
     size m = 2%nat).
Proof.
  split.
  - refine (proj1 (HealthCheck_statuses_independent (externals quoting)
                     (redisRepo quoting) start)
              (OpenERAPIClient_ProviderClient (externals quoting)
                 (NewOpenERAPIClient (externals quoting) (Providers config)))
              eq_refl _).
    simpl; discriminate.
  - exact (proj1 (proj2 (HealthCheck_statuses_independent (externals quoting)
                           {| repo_config := config;
                              repo_cache := InMemoryCache_Cache NewInMemoryCache;
                              repo_client := None |} start))
             eq_refl).
Defined.

End HealthChecks.

Section Calendar.

(** The calendar: a civil date is recovered from its day number, and a
    date read by the layout 2006-01-02 is written back as it was read. *)

Lemma yoe_recovered yoe doy :
  0 <= yoe <= 399 ->
  0 <= doy <= 365 ->
  (doy = 365 -> yoe mod 4 = 3 /\ (yoe mod 100 <> 99 \/ yoe = 399)) ->
  let doe := yoe * 365 + yoe / 4 - yoe / 100 + doy in
  0 <= doe < 146097 /\
  (doe - doe / 1460 + doe / 36524 - doe / 146096) / 365 = yoe.
Proof.
  intros Hy Hd Hl doe. subst doe.
  split; Z.div_mod_to_equations; lia.
Qed.

Lemma month_recovered mp d :
  0 <= mp <= 11 ->
  1 <= d <= 31 ->
  (mp = 1 \/ mp = 3 \/ mp = 6 \/ mp = 8 -> d <= 30) ->
  (mp = 11 -> d <= 29) ->
  let doy := (153 * mp + 2) / 5 + d - 1 in
  0 <= doy <= 365 /\ (doy = 365 -> mp = 11 /\ d = 29) /\
  (5 * doy + 2) / 153 = mp /\
  doy - (153 * ((5 * doy + 2) / 153) + 2) / 5 + 1 = d.
Proof.
  intros Hm Hd H30 H29 doy. subst doy.
  assert (Hc : mp = 0 \/ mp = 1 \/ mp = 2 \/ mp = 3 \/ mp = 4 \/ mp = 5 \/ mp = 6 \/
               mp = 7 \/ mp = 8 \/ mp = 9 \/ mp = 10 \/ mp = 11) by lia.
  repeat (destruct Hc as [->|Hc]); try subst mp;
    repeat split; try (Z.div_mod_to_equations; lia).
Qed.

Lemma civil_roundtrip y m d :
  1 <= m <= 12 -> 1 <= d <= daysIn m y ->
  civilFromDays (daysFromCivil y m d) = (y, m, d).
Proof.
  intros Hm Hd.
  unfold daysFromCivil.
  set (y' := if m <=? 2 then y - 1 else y).
  set (era := y' / 400).
  set (yoe := y' - era * 400).
  set (mp := if 2 <? m then m - 3 else m + 9).
  set (doy := (153 * mp + 2) / 5 + d - 1).
  assert (Hyoe : 0 <= yoe <= 399) by (subst yoe era; Z.div_mod_to_equations; lia).
  assert (Hmp : 0 <= mp <= 11 /\ (2 < m -> mp = m - 3) /\ (m <= 2 -> mp = m + 9)).
  { subst mp. destruct (Z.ltb_spec 2 m); lia. }
  assert (Hy' : (m <= 2 -> y' = y - 1) /\ (2 < m -> y' = y)).
  { subst y'. destruct (Z.leb_spec m 2); lia. }
  assert (Hdays : 1 <= d <= 31 /\
                  (mp = 1 \/ mp = 3 \/ mp = 6 \/ mp = 8 -> d <= 30) /\
                  (mp = 11 -> d <= 29 /\
                     (d = 29 -> yoe mod 4 = 3 /\ (yoe mod 100 <> 99 \/ yoe = 399)))).
  { unfold daysIn, isLeap in Hd.
    destruct (Z.eqb_spec m 2) as [->|Hne].
    - assert (mp = 11) by lia. assert (y' = y - 1) by lia.
      destruct (Z.eqb_spec (y mod 4) 0), (Z.eqb_spec (y mod 100) 0),
        (Z.eqb_spec (y mod 400) 0); cbn in Hd;
        (split; [lia|]; split; [lia|]; intros _; split; [lia|]; intros Hd29;
         try lia; subst yoe era; Z.div_mod_to_equations; lia).
    - destruct (Z.eqb_spec m 4), (Z.eqb_spec m 6), (Z.eqb_spec m 9),
        (Z.eqb_spec m 11); cbn in Hd; lia. }
  destruct Hdays as (Hd31 & H30 & H29).
  destruct (month_recovered mp d (proj1 Hmp) Hd31 H30 (fun H => proj1 (H29 H)))
    as (Hdoy & H365 & Hmp' & Hd').
  fold doy in Hdoy, H365, Hmp', Hd'.
  destruct (yoe_recovered yoe doy Hyoe Hdoy) as (Hdoe & Hrec).
  { intros H. destruct (H365 H) as [? ?]. apply H29; assumption. }
  set (doe := yoe * 365 + yoe / 4 - yoe / 100 + doy) in *.
  unfold civilFromDays.
  replace (era * 146097 + doe - 719468 + 719468) with (doe + era * 146097) by lia.
  rewrite Z.div_add by lia.
  rewrite (Z.div_small doe) by lia.
  replace (doe + era * 146097 - (0 + era) * 146097) with doe by lia.
  rewrite Hrec.
  replace (doe - (365 * yoe + yoe / 4 - yoe / 100)) with doy by (subst doe; lia).
  rewrite Hd', Hmp'.
  destruct (Z.ltb_spec mp 10), (Z.leb_spec (mp + 3) 2), (Z.leb_spec (mp - 9) 2);
    f_equal; try f_equal; try lia; subst yoe; lia.
Qed.
Lemma isDigit_In c : GoString.isDigit c = true -> In c digits.
Proof.
  destruct c as [[] [] [] [] [] [] [] []]; vm_compute; try discriminate; intros _; tauto.
Qed.

Lemma writes2_all :
  forallb (fun a => forallb (fun b => writes2 a b) digits) digits = true.
Proof. vm_compute. reflexivity. Qed.

Lemma writes4_all :
  forallb (fun a => forallb (fun b => forallb (fun c => forallb (fun d =>
    writes4 a b c d) digits) digits) digits) digits = true.
Proof. vm_compute. reflexivity. Qed.

Lemma num2_Some a b v :
  num2 a b = Some v ->
  v = 10 * GoString.digitVal a + GoString.digitVal b /\
  appendInt v 2 = String a (String b "").
Proof.
  unfold num2.
  destruct (GoString.isDigit a) eqn:Ha, (GoString.isDigit b) eqn:Hb;
    try discriminate.
  intros [= <-]. split; [done|].
  pose proof writes2_all as H.
  rewrite forallb_forall in H. specialize (H a (isDigit_In a Ha)).
  rewrite forallb_forall in H. specialize (H b (isDigit_In b Hb)).
  by apply String.eqb_eq in H.
Qed.

Lemma num4_Some a b c d v :
  num4 a b c d = Some v ->
  appendInt v 4 = String a (String b (String c (String d ""))).
Proof.
  unfold num4, num2.
  destruct (GoString.isDigit a) eqn:Ha, (GoString.isDigit b) eqn:Hb;
    try discriminate.
  destruct (GoString.isDigit c) eqn:Hc, (GoString.isDigit d) eqn:Hd;
    try discriminate.
  intros [= <-].
  pose proof writes4_all as H.
  rewrite forallb_forall in H. specialize (H a (isDigit_In a Ha)).
  rewrite forallb_forall in H. specialize (H b (isDigit_In b Hb)).
  rewrite forallb_forall in H. specialize (H c (isDigit_In c Hc)).
  rewrite forallb_forall in H. specialize (H d (isDigit_In d Hd)).
  by apply String.eqb_eq in H.
Qed.

Lemma checked_Some y m d t :
  checked y m d = Some t -> civil t = (y, m, d).
Proof.
  unfold checked.
  destruct (Z.leb_spec m 0), (Z.ltb_spec 12 m); try discriminate.
  destruct (Z.ltb_spec d 1), (Z.ltb_spec (daysIn m y) d); try discriminate.
  intros [= <-]. unfold civil, Date, secondsPerDay.
  rewrite Z.div_mul by done. apply civil_roundtrip; lia.
Qed.

Lemma Format_Parse s t : Parse s = Some t -> Format t = s.
Proof.
  unfold Parse, ParseYMD.
  rewrite <- (String.string_of_list_ascii_of_string s) at 2.
  destruct (String.list_ascii_of_string s)
    as [|y1 [|y2 [|y3 [|y4 [|s1 [|m1 [|m2 [|s2 [|d1 [|d2 [|? ?]]]]]]]]]]];
    try discriminate.
  destruct (Ascii.eqb_spec s1 "-") as [->|]; [|discriminate].
  destruct (Ascii.eqb_spec s2 "-") as [->|]; [|discriminate].
  cbn [andb].
  destruct (num4 y1 y2 y3 y4) as [y|] eqn:Hy; [|discriminate].
  destruct (num2 m1 m2) as [m|] eqn:Hm; [|discriminate].
  destruct (num2 d1 d2) as [d|] eqn:Hd; [|discriminate].
  cbn [mbind option_bind].
  intros Hc. unfold Format. rewrite (checked_Some _ _ _ _ Hc).
  rewrite (num4_Some _ _ _ _ _ Hy).
  rewrite (proj2 (num2_Some _ _ _ Hm)), (proj2 (num2_Some _ _ _ Hd)).
  reflexivity.
Qed.

End Calendar.

Section KeysAndExpirations.

Context {St : Type}.
Implicit Types (r : rateRepository (St := St)) (w : World St).






End KeysAndExpirations.

Section KeysAndExpirationsChecks.

Import Scenario.

Example latest_key_USD_EUR : latestKey "USD" "EUR" = "rate:USD:EUR:latest".
Proof. reflexivity. Qed.

Example historical_key_USD_EUR :
  historicalKey "USD" "EUR" (Date 2024 2 10) = "rate:USD:EUR:2024-02-10".
Proof. reflexivity. Qed.



End KeysAndExpirationsChecks.

Section Historical.

Context {St : Type}.
Variable X : Externals St.
Implicit Types (c : OpenERAPIClient (St := St)) (w : World St).

Lemma fetchLatest_error c url s e s' :
  fetchLatest X c url s = (inl e, s') ->
  (exists msg u, e = wrapError msg u) \/
  (exists tail, e = errorString ("API returned " +:+ tail)).
Proof.
  unfold fetchLatest, Errorf_w.
  destruct (NewRequestError X url); [intros [= <- <-]; eauto|].
  destruct (Do _ _ _) as [[err|resp] s1]; [intros [= <- <-]; eauto|].
  destruct (negb (StatusCode resp =? 200)); [intros [= <- <-]; right; eauto|].
  destruct (Body resp); [intros [= <- <-]; eauto|].
  destruct (negb (String.eqb _ _)); [intros [= <- <-]; right; eauto|].
  discriminate.
Qed.

(** C8, as amended: the client refuses historical rates with a plain
    string error, "historical rates not supported by NAME in free tier",
    that carries no kind; it leaves the world as it was.  The error is told
    apart from the client's other failures by its text alone: no error of
    [GetLatestRate], [GetSupportedCurrencies] or [HealthCheck] equals it. *)
Theorem GetHistoricalRate_unsupported_by_message c base target date s :
  OpenERAPIClient_GetHistoricalRate c base target date s =
    (inl (unsupportedError (oer_name c)), s) /\
  kindOf (unsupportedError (oer_name c)) = None /\
  (forall b t s0 e s', OpenERAPIClient_GetLatestRate X c b t s0 = (inl e, s') ->
                       e <> unsupportedError (oer_name c)) /\
  (forall s0 e s', OpenERAPIClient_GetSupportedCurrencies X c s0 = (inl e, s') ->
                   e <> unsupportedError (oer_name c)) /\
  (forall s0 e s', OpenERAPIClient_HealthCheck X c s0 = (Some e, s') ->
                   e <> unsupportedError (oer_name c)).
Proof.
  split; [reflexivity|]. split; [reflexivity|].
  split; [|split].
  - intros b t s0 e s'. unfold OpenERAPIClient_GetLatestRate.
    destruct (fetchLatest _ _ _ _) as [[err|api] s1] eqn:Hf.
    + intros [= <- <-].
      apply fetchLatest_error in Hf as [(msg & u & ->)|(tail & ->)];
        discriminate.
    + destruct (_ !! _); [by destruct (Now X s1)|].
      intros [= <- <-]; discriminate.
  - intros s0 e s'. unfold OpenERAPIClient_GetSupportedCurrencies.
    destruct (fetchLatest _ _ _ _) as [[err|api] s1] eqn:Hf; [|discriminate].
    intros [= <- <-].
    apply fetchLatest_error in Hf as [(msg & u & ->)|(tail & ->)]; discriminate.
  - intros s0 e s'. unfold OpenERAPIClient_HealthCheck, Errorf_w.
    destruct (NewRequestError X _); [intros [= <- <-]; discriminate|].
    destruct (Do _ _ _) as [[err|resp] s1]; [intros [= <- <-]; discriminate|].
    destruct (negb _); intros [= <- <-]; discriminate.
Qed.

(** C9: the client's [GetHistoricalRate] fails for every base, target and
    date and leaves the world untouched, so it makes no request.  With
    this client behind it, the repository's [GetHistoricalRate] never
    writes to the cache; it returns the cached rate when the cache read
    succeeds and an error whenever the cache read fails.  The constructor
    installs no other client. *)
Theorem historical_rate_only_from_cache cfg (cache : Cache St) c base target date w :
  let r := {| repo_config := cfg; repo_cache := cache;
              repo_client := Some (OpenERAPIClient_ProviderClient X c) |} in
  let run := rateRepository_GetHistoricalRate r base target date w in
  (forall s, exists err,
     OpenERAPIClient_GetHistoricalRate c base target date s = (inl err, s)) /\
  expirations (added w (snd run)) = [] /\
  match Cache_Get cache DHist (historicalKey base target date) (ext w) with
  | (inr cached, _) => fst run = Returned (inr cached)
  | (inl _, s1) =>
      run = (Returned (inl (unsupportedError (oer_name c))),
             after w s1 [EvCacheGet (historicalKey base target date);
                         EvProviderGetHistoricalRate base target date])
  end /\
  (forall cfg' w0, exists r' w' c',
     NewRateRepository X cfg' w0 = (Returned r', w') /\
     repo_client r' = Some (OpenERAPIClient_ProviderClient X c')).
Proof.
  cbv zeta. rewrite rateRepository_GetHistoricalRate_run; cbv zeta.
  cbn [repo_cache repo_client OpenERAPIClient_ProviderClient pc_GetHistoricalRate].
  unfold OpenERAPIClient_GetHistoricalRate.
  split; [by eexists|].
  split; [|split].
  - destruct (Cache_Get _ _ _ _) as [[e|cached] s1]; cbn [fst snd];
      by rewrite added_after.
  - by destruct (Cache_Get _ _ _ _) as [[e|cached] s1].
  - intros cfg' w0.
    destruct (NewRateRepository_returns X cfg' w0) as (r' & w' & c' & Hn & Hc & _).
    eauto.
Qed.

End Historical.

Section HistoricalChecks.

Import Scenario.

(** C8, as stated, fails: the refusal is an error of the same dynamic type
    as the error of a broken upstream, and every function of the error
    package answers the same for both, so nothing but the text tells "not
    offered" from "broken". *)
Lemma unsupported_error_is_generic :
  let c := NewOpenERAPIClient (externals failing) (Providers config) in
  fst (OpenERAPIClient_GetHistoricalRate c "USD" "EUR" (Date 2024 2 10) (ext start))
    = inl (errorString
             "historical rates not supported by open.er-api.com in free tier") /\
  fst (OpenERAPIClient_GetLatestRate (externals failing) c "USD" "EUR" (ext start))
    = inl (errorString "API returned status 500") /\
  let refusal := errorString
        "historical rates not supported by open.er-api.com in free tier" in
  let broken := errorString "API returned status 500" in
  asAppError refusal = None /\
  kindOf refusal = kindOf broken /\
  GetHTTPStatusCode refusal = GetHTTPStatusCode broken /\
  IsValidationError refusal = IsValidationError broken /\
  IsNotFoundError refusal = IsNotFoundError broken /\
  Unwrap refusal = Unwrap broken.
Proof. repeat split. Qed.

(** The amended C8 at the failing upstream: the error of the broken
    provider is not the refusal. *)
Lemma GetHistoricalRate_unsupported_by_message_witness :
  errorString "API returned status 500" <> unsupportedError "open.er-api.com".
Proof.
  exact (proj1 (proj2 (proj2
           (GetHistoricalRate_unsupported_by_message (externals failing)
              (NewOpenERAPIClient (externals failing) (Providers config))
              "USD" "EUR" (Date 2024 2 10) (ext start))))
           "USD" "EUR" (ext start) _ _ eq_refl).
Defined.

End HistoricalChecks.

(* ================================================================== *)
(** * Further properties of the code *)

Section ErrorsAndValidation.

(** X1: the status code of an error agrees with the predicates of the
    package: an error is a validation error exactly when its status is
    400 and a not-found error exactly when it is 404; 503 is the status of
    exactly the provider and cache kinds; an error that is not an
    [AppError] has status 500; and no other status than 400, 401, 403, 404,
    500 and 503 is ever returned. *)
Theorem status_code_classifies err :
  (IsValidationError err = true <-> GetHTTPStatusCode err = 400) /\
  (IsNotFoundError err = true <-> GetHTTPStatusCode err = 404) /\
  (kindOf err = Some ErrorTypeProvider \/ kindOf err = Some ErrorTypeCache <->
   GetHTTPStatusCode err = 503) /\
  (asAppError err = None -> GetHTTPStatusCode err = 500) /\
  In (GetHTTPStatusCode err) statusCodes.
Proof.
  unfold IsValidationError, IsNotFoundError, GetHTTPStatusCode, kindOf, statusCodes.
  destruct err as [m|m u|[] m c d u]; cbn;
    intuition (first [discriminate | congruence | idtac]).
Qed.

(** X2: what validation lets through.  A pair of currencies is accepted
    exactly when both are non-empty and they differ; a conversion request
    exactly when moreover its amount is not at most zero (in binary64, so
    a NaN amount is let through); and every rejection is an error of kind
    validation, of status 400. *)
Theorem validation_accepts_exactly base target req :
  (validateCurrencies base target = None <->
   base <> "" /\ target <> "" /\ base <> target) /\
  (validateConversionRequest req = None <->
   ConversionRequest.FromCurrency req <> "" /\
   ConversionRequest.ToCurrency req <> "" /\
   (ConversionRequest.Amount req <=? 0)%float = false /\
   ConversionRequest.FromCurrency req <> ConversionRequest.ToCurrency req) /\
  (forall err,
     validateCurrencies base target = Some err \/
     validateConversionRequest req = Some err ->
     IsValidationError err = true /\ GetHTTPStatusCode err = 400).
Proof.
  unfold validateCurrencies, validateConversionRequest.
  split; [|split].
  - destruct (String.eqb_spec base ""), (String.eqb_spec target ""),
      (String.eqb_spec base target); split; try done; intros (? & ? & ?); done.
  - destruct (String.eqb_spec (ConversionRequest.FromCurrency req) ""),
      (String.eqb_spec (ConversionRequest.ToCurrency req) ""),
      (ConversionRequest.Amount req <=? 0)%float,
      (String.eqb_spec (ConversionRequest.FromCurrency req)
                       (ConversionRequest.ToCurrency req));
      split; try done; intros (? & ? & ? & ?); done.
  - intros err [H|H];
      repeat (match type of H with
              | context [if ?b then _ else _] => destruct b
              end);
      try discriminate; by injection H as <-.
Qed.

End ErrorsAndValidation.

Section ErrorsAndValidationChecks.

(** X1 at a validation error and at an error of the standard library. *)
Lemma status_code_classifies_witness :
  GetHTTPStatusCode (NewValidationError "amount must be positive" "") = 400 /\
  GetHTTPStatusCode (errorString "EOF") = 500.
Proof.
  split.
  - exact (proj1 (proj1 (status_code_classifies
                           (NewValidationError "amount must be positive" "")))
             eq_refl).
  - exact (proj1 (proj2 (proj2 (proj2 (status_code_classifies (errorString "EOF")))))
             eq_refl).
Defined.

(** X2 at dollars to euros and the amount 100. *)
Lemma validation_accepts_exactly_witness :
  validateCurrencies "USD" "EUR" = None /\
  validateConversionRequest (ConversionRequest.mk "USD" "EUR" 100 "") = None.
Proof.
  pose proof (validation_accepts_exactly "USD" "EUR"
                (ConversionRequest.mk "USD" "EUR" 100 "")) as (Hc & Hr & _).
  split.
  - apply Hc. repeat split; discriminate.
  - apply Hr. repeat split; discriminate.
Defined.

End ErrorsAndValidationChecks.

Section ConstructorProperties.

Context {St : Type}.
Variable X : Externals St.
Implicit Types (r : rateRepository (St := St)) (w : World St).

(** The constructor in one equation: the cache by the answer of the ping,
    the client from the effective provider configuration, and the log. *)
Lemma NewRateRepository_run cfg w :
  NewRateRepository X cfg w =
  let client := redis_NewClient X (Addr (Redis cfg)) (Password (Redis cfg))
                                (DB (Redis cfg)) in
  (Returned
     {| repo_config := cfg;
        repo_cache :=
          match fst (redis_Ping client (ext w)) with
          | Some _ => InMemoryCache_Cache NewInMemoryCache
          | None => RedisCache_Cache X {| rc_client := client |}
          end;
        repo_client :=
          Some (OpenERAPIClient_ProviderClient X
                  (NewOpenERAPIClient X (effectiveProvider X (Providers cfg)))) |},
   after w (snd (redis_Ping client (ext w)))
     (redisFailLog (fst (redis_Ping client (ext w))) ++
      overrideLog X (cfg_Name (Providers cfg)))).
Proof.
  unfold NewRateRepository, NewRedisCache, effectiveProvider, overrideLog,
    accepted, bind, lift, Log, emit, ret, after; cbv zeta.
  destruct (redis_Ping _ _) as [[err|] s1]; cbn [fst snd redisFailLog];
    destruct (String.eqb _ "open.er-api.com"), (String.eqb _ "openerapi");
    cbn; rewrite ?app_nil_r; try reflexivity; by rewrite <- app_assoc.
Qed.


(** X3: the in-memory fallback holds nothing.  Its [Set] reports success
    and its [Ping] is healthy, yet after any write [Exists] answers false
    and [Get] fails, all without touching the world; so a repository on
    this cache with a provider client reaches the provider exactly once in
    every call of every getter, however often the same rate was fetched
    before. *)
Theorem in_memory_cache_never_serves r c :
  repo_cache r = InMemoryCache_Cache NewInMemoryCache ->
  repo_client r = Some c ->
  (forall key value ttl d k (s : St),
     Cache_Set (repo_cache r) key value ttl s = (None, s) /\
     Cache_Ping (repo_cache r) s = (None, s) /\
     Cache_Exists (repo_cache r) k s = (inr false, s) /\
     exists e, Cache_Get (repo_cache r) d k s = (inl e, s)) /\
  (forall base target date w,
     providerCalls (added w (snd (rateRepository_GetLatestRate r base target w)))
       = 1%nat /\
     providerCalls
       (added w (snd (rateRepository_GetHistoricalRate r base target date w)))
       = 1%nat /\
     providerCalls (added w (snd (rateRepository_GetSupportedCurrencies r w)))
       = 1%nat).
Proof.
  intros Hcache Hc. split.
  - intros; rewrite Hcache; repeat split. by eexists.
  - intros base target date w.
    rewrite rateRepository_GetLatestRate_run, rateRepository_GetHistoricalRate_run,
      rateRepository_GetSupportedCurrencies_run; cbv zeta.
    rewrite Hcache, Hc; cbn [InMemoryCache_Cache Cache_Get Cache_Set
                              InMemoryCache_Get InMemoryCache_Set].
    repeat split.
    + destruct (pc_GetLatestRate _ _ _ _) as [[err|rate] s2]; cbn [fst snd];
        by rewrite added_after.
    + destruct (pc_GetHistoricalRate _ _ _ _ _) as [[err|rate] s2]; cbn [fst snd];
        by rewrite added_after.
    + destruct (pc_GetSupportedCurrencies _ _) as [[err|rate] s2]; cbn [fst snd];
        by rewrite added_after.
Qed.

(** X4: the cache is chosen once, by the ping of the constructor.  When
    that ping fails the repository gets the in-memory cache and the wrapped
    error is logged; it then reaches the provider in every later call of
    [GetLatestRate], whatever Redis answers by then.  When the ping
    succeeds the repository gets the Redis cache and nothing is logged
    about Redis. *)
Theorem cache_is_chosen_at_construction cfg w :
  let client := redis_NewClient X (Addr (Redis cfg)) (Password (Redis cfg))
                                (DB (Redis cfg)) in
  exists r w',
    NewRateRepository X cfg w = (Returned r, w') /\
    match fst (redis_Ping client (ext w)) with
    | Some err =>
        repo_cache r = InMemoryCache_Cache NewInMemoryCache /\
        head (added w w') =
          Some (EvLog [("error", LErr (Errorf_w "failed to connect to Redis: " err));
                       ("msg", LStr "failed to initialize Redis cache")]) /\
        (forall base target w2,
           providerCalls
             (added w2 (snd (rateRepository_GetLatestRate r base target w2)))
           = 1%nat)
    | None =>
        repo_cache r = RedisCache_Cache X {| rc_client := client |} /\
        added w w' = overrideLog X (cfg_Name (Providers cfg))
    end.
Proof.
  cbv zeta. rewrite NewRateRepository_run; cbv zeta.
  do 2 eexists; split; [reflexivity|].
  rewrite added_after.
  destruct (fst (redis_Ping _ _)) as [err|]; cbn [repo_cache redisFailLog].
  - split; [done|]. split; [done|].
    intros base target w2.
    rewrite rateRepository_GetLatestRate_run; cbv zeta.
    cbn [repo_cache repo_client InMemoryCache_Cache Cache_Get Cache_Set
         InMemoryCache_Get InMemoryCache_Set].
    destruct (pc_GetLatestRate _ _ _ _) as [[e|rate] s2]; cbn [fst snd];
      by rewrite added_after.
  - done.
Qed.


End ConstructorProperties.

Section LoadProperties.

Context {St : Type}.
Variable X : Externals St.
Variable Getenv : string -> string.
Variable Atoi : string -> option Z.
Variable ParseDuration : string -> option Duration.

Lemma getEnv_nonempty key defaultValue :
  defaultValue <> "" -> getEnv Getenv key defaultValue <> "".
Proof.
  unfold getEnv. by destruct (String.eqb_spec (Getenv key) "").
Qed.

(** X6: whatever the environment holds, the configuration [Load] returns
    names the provider open.er-api.com and has a non-empty base URL, port
    and Redis address; the constructor therefore accepts it as it is: the
    client is built from the loaded provider configuration and no override
    is logged.  With no variable set, [Load] returns the defaults. *)
Theorem Load_needs_no_override w :
  let cfg := Load Getenv Atoi ParseDuration in
  cfg_Name (Providers cfg) = "open.er-api.com" /\
  cfg_BaseURL (Providers cfg) <> "" /\
  Port (Server cfg) <> "" /\
  Addr (Redis cfg) <> "" /\
  (exists r w',
     NewRateRepository X cfg w = (Returned r, w') /\
     repo_client r =
       Some (OpenERAPIClient_ProviderClient X
               (NewOpenERAPIClient X (Providers cfg))) /\
     ~ In (EvLog [("warn", LStr "provider overridden to open.er-api.com")])
          (added w w')) /\
  Load (fun _ => "") Atoi ParseDuration = Scenario.config.
Proof.
  cbv zeta. split; [done|].
  split; [by apply getEnv_nonempty|].
  split; [by apply getEnv_nonempty|].
  split; [by apply getEnv_nonempty|].
  split; [|done].
  rewrite NewRateRepository_run; cbv zeta.
  do 2 eexists; split; [reflexivity|]. split; [reflexivity|].
  rewrite added_after. cbn [overrideLog Load Providers cfg_Name].
  change (overrideLog X "open.er-api.com") with (@nil Event).
  rewrite app_nil_r.
  destruct (fst (redis_Ping _ _)); cbn; [|tauto].
  intros [H|[]]. discriminate H.
Qed.

End LoadProperties.

Section ConstructorChecks.

Import Scenario.

(** X3 at the repository built while Redis is down. *)
Lemma in_memory_cache_never_serves_witness :
  providerCalls
    (added start (snd (rateRepository_GetLatestRate (repo quoting) "USD" "EUR" start)))
  = 1%nat /\
  Cache_Exists (repo_cache (repo quoting)) "rate:USD:EUR:latest" (ext start)
  = (inr false, ext start).
Proof.
  pose proof (in_memory_cache_never_serves (repo quoting) _ eq_refl eq_refl)
    as [Hcache Hcalls].
  split.
  - exact (proj1 (Hcalls "USD" "EUR" 0 start)).
  - exact (proj1 (proj2 (proj2
             (Hcache "" (VCurrencies []) 0 DRate "rate:USD:EUR:latest" (ext start))))).
Defined.


(** X6 with no variable set. *)
Lemma Load_needs_no_override_witness :
  Load (fun _ => "") (fun _ => None) (fun _ => None) = config.
Proof.
  exact (proj2 (proj2 (proj2 (proj2 (proj2
           (Load_needs_no_override (externals quoting) (fun _ => "")
              (fun _ => None) (fun _ => None) start)))))).
Defined.

End ConstructorChecks.

Section ClientProperties.

Context {St : Type}.
Variable X : Externals St.
Implicit Types (c : OpenERAPIClient (St := St)) (s : St).

(** When the shared request succeeds: the request could be built, the
    upstream answered 200, the body decoded and announced success. *)
Lemma fetchLatest_success c url s api s1 :
  fetchLatest X c url s = (inr api, s1) <->
  NewRequestError X url = None /\
  exists resp,
    Do (oer_client c) url s = (inr resp, s1) /\
    StatusCode resp = 200 /\
    Body resp = inr api /\
    OpenERAPIResponse.Result api = "success".
Proof.
  unfold fetchLatest. split.
  - destruct (NewRequestError X url); [discriminate|].
    destruct (Do _ _ _) as [[err|resp] s0]; [discriminate|].
    destruct (Z.eqb_spec (StatusCode resp) 200); [|discriminate]; cbn [negb].
    destruct (Body resp) as [err|api0] eqn:Hbody; [discriminate|].
    destruct (String.eqb_spec (OpenERAPIResponse.Result api0) "success");
      [|discriminate]; cbn [negb].
    intros [= <- <-]. split; [done|]. by exists resp.
  - intros (-> & resp & -> & Hst & -> & Hres).
    rewrite Hst, Hres. reflexivity.
Qed.

(** X7: the client returns a latest rate exactly when the request to
    BASEURL/latest/BASE could be built, the upstream answered 200 with a
    body that decodes, announces success and quotes the target; the rate
    returned is then that quote, for the base and target asked, under the
    client's name, stamped with the time read after the answer. *)
Theorem GetLatestRate_returns_the_quote c base target s rate s' :
  OpenERAPIClient_GetLatestRate X c base target s = (inr rate, s') <->
  let url := oer_baseURL c +:+ "/latest/" +:+ base in
  NewRequestError X url = None /\
  exists resp api s1 quote,
    Do (oer_client c) url s = (inr resp, s1) /\
    StatusCode resp = 200 /\
    Body resp = inr api /\
    OpenERAPIResponse.Result api = "success" /\
    OpenERAPIResponse.Rates api !! target = Some quote /\
    rate = {| ExchangeRate.BaseCurrency := base;
              ExchangeRate.TargetCurrency := target;
              ExchangeRate.Rate := quote;
              ExchangeRate.Provider := oer_name c;
              ExchangeRate.FetchedAt := fst (Now X s1);
              ExchangeRate.IsStale := false;
              ExchangeRate.TTL := 0 |} /\
    s' = snd (Now X s1).
Proof.
  cbv zeta. unfold OpenERAPIClient_GetLatestRate. split.
  - destruct (fetchLatest _ _ _ _) as [[err|api] s1] eqn:Hf; [discriminate|].
    apply fetchLatest_success in Hf as (Hreq & resp & Hdo & Hst & Hbody & Hres).
    destruct (_ !! _) as [quote|] eqn:Hq; [|discriminate].
    destruct (Now X s1) as [now s2] eqn:Hnow. intros [= <- <-].
    split; [done|]. exists resp, api, s1, quote. by rewrite Hnow.
  - intros (Hreq & resp & api & s1 & quote & Hdo & Hst & Hbody & Hres & Hq & -> & ->).
    rewrite (proj2 (fetchLatest_success c _ s api s1)) by eauto 10.
    rewrite Hq. by destruct (Now X s1).
Qed.

(** X8: the list of supported currencies is the key set of the upstream's
    rates for the dollar: one currency per key, no code twice, and every
    currency named by its code, marked supported, without symbol. *)
Theorem GetSupportedCurrencies_lists_the_keys c s currencies s' :
  OpenERAPIClient_GetSupportedCurrencies X c s = (inr currencies, s') ->
  exists resp api,
    Do (oer_client c) (oer_baseURL c +:+ "/latest/USD") s = (inr resp, s') /\
    Body resp = inr api /\
    NoDup (Currency.Code <$> currencies) /\
    (forall code, code ∈ (Currency.Code <$> currencies) <->
                  is_Some (OpenERAPIResponse.Rates api !! code)) /\
    length currencies = size (OpenERAPIResponse.Rates api) /\
    Forall (fun cur => Currency.Name cur = Currency.Code cur /\
                       Currency.IsSupported cur = true /\
                       Currency.Symbol cur = "" /\
                       Currency.IsBase cur = false) currencies.
Proof.
  unfold OpenERAPIClient_GetSupportedCurrencies.
  destruct (fetchLatest _ _ _ _) as [[err|api] s1] eqn:Hf; [discriminate|].
  apply fetchLatest_success in Hf as (Hreq & resp & Hdo & Hst & Hbody & Hres).
  intros [= <- <-]. exists resp, api. split; [done|]. split; [done|].
  rewrite <- list_fmap_compose.
  change (Currency.Code ∘ _) with (fst : string * float -> string).
  split; [apply NoDup_fst_map_to_list|].
  split; [|split].
  - intros code. rewrite list_elem_of_fmap. split.
    + intros ([k v] & -> & Hin%elem_of_map_to_list). by eexists.
    + intros [v Hv]. exists (code, v). split; [done|].
      by apply elem_of_map_to_list.
  - by rewrite length_fmap, length_map_to_list.
  - apply Forall_fmap, Forall_forall. by intros [k v] _.
Qed.


End ClientProperties.

Section ClientChecks.

Import Scenario.

(** X7 at the upstream quoting the euro at 0.92. *)
Lemma GetLatestRate_returns_the_quote_witness :
  OpenERAPIClient_GetLatestRate (externals quoting) (client quoting) "USD" "EUR"
    (ext start) =
  (inr (ExchangeRate.mk "USD" "EUR" 0.92 "open.er-api.com" 1707523200 false 0),
   asked).
Proof.
  apply GetLatestRate_returns_the_quote. split; [reflexivity|].
  exists {| StatusCode := 200; Body := inr (apiBody {[ "EUR" := 0.92%float ]}) |},
    (apiBody {[ "EUR" := 0.92%float ]}), asked, 0.92%float.
  repeat split; reflexivity.
Defined.

(** X8 at the same upstream: the euro is the one currency listed. *)
Lemma GetSupportedCurrencies_lists_the_keys_witness :
  exists resp api,
    Do (oer_client (client quoting)) "https://open.er-api.com/v6/latest/USD"
       (ext start) = (inr resp, asked) /\
    Body resp = inr api /\
    NoDup (Currency.Code <$> [Currency.mk "EUR" "EUR" "" false true]) /\
    (forall code, code ∈ (Currency.Code <$> [Currency.mk "EUR" "EUR" "" false true])
                  <-> is_Some (OpenERAPIResponse.Rates api !! code)) /\
    length [Currency.mk "EUR" "EUR" "" false true]
      = size (OpenERAPIResponse.Rates api) /\
    Forall (fun cur => Currency.Name cur = Currency.Code cur /\
                       Currency.IsSupported cur = true /\
                       Currency.Symbol cur = "" /\
                       Currency.IsBase cur = false)
           [Currency.mk "EUR" "EUR" "" false true].
Proof.
  apply (GetSupportedCurrencies_lists_the_keys (externals quoting) (client quoting)
           (ext start)).
  vm_compute. reflexivity.
Defined.


End ClientChecks.

Section RepositoryProperties.

Context {St : Type}.
Implicit Types (r : rateRepository (St := St)) (w : World St).


(** X11: a repository without a provider client serves cache hits and
    nothing else: on a cache miss each of the three getters panics on the
    nil client right after the cache read, with no provider call and no
    cache write, while the health check still returns. *)
Theorem nil_client_panics_on_miss r base target date w :
  repo_client r = None ->
  let lrun := rateRepository_GetLatestRate r base target w in
  let hrun := rateRepository_GetHistoricalRate r base target date w in
  let crun := rateRepository_GetSupportedCurrencies r w in
  match Cache_Get (repo_cache r) DRate (latestKey base target) (ext w) with
  | (inr cached, _) => fst lrun = Returned (inr cached)
  | (inl _, _) =>
      fst lrun = Panicked /\
      added w (snd lrun) = [EvCacheGet (latestKey base target)]
  end /\
  match Cache_Get (repo_cache r) DHist (historicalKey base target date) (ext w) with
  | (inr cached, _) => fst hrun = Returned (inr cached)
  | (inl _, _) =>
      fst hrun = Panicked /\
      added w (snd hrun) = [EvCacheGet (historicalKey base target date)]
  end /\
  match Cache_Get (repo_cache r) DCurrencies currenciesKey (ext w) with
  | (inr cached, _) => fst crun = Returned (inr cached)
  | (inl _, _) =>
      fst crun = Panicked /\ added w (snd crun) = [EvCacheGet currenciesKey]
  end /\
  exists m, fst (rateRepository_HealthCheck r w) = Returned (inr m).
Proof.
  intros Hc; cbv zeta.
  rewrite rateRepository_GetLatestRate_run, rateRepository_GetHistoricalRate_run,
    rateRepository_GetSupportedCurrencies_run, rateRepository_HealthCheck_run, Hc;
    cbv zeta.
  repeat split.
  - destruct (Cache_Get _ DRate _ _) as [[e|cached] s1]; cbn [fst snd];
      by rewrite ?added_after.
  - destruct (Cache_Get _ DHist _ _) as [[e|cached] s1]; cbn [fst snd];
      by rewrite ?added_after.
  - destruct (Cache_Get _ DCurrencies _ _) as [[e|cached] s1]; cbn [fst snd];
      by rewrite ?added_after.
  - destruct (Cache_Ping _ _) as [perr s1]. by eexists.
Qed.

End RepositoryProperties.

Section RepositoryChecks.

Import Scenario.


(** X11 at a repository without client on the in-memory cache. *)
Lemma nil_client_panics_on_miss_witness :
  fst (rateRepository_GetLatestRate
         {| repo_config := config;
            repo_cache := InMemoryCache_Cache NewInMemoryCache;
            repo_client := None |} "USD" "EUR" start) = Panicked.
Proof.
  exact (proj1 (proj1 (nil_client_panics_on_miss
                         {| repo_config := config;
                            repo_cache := InMemoryCache_Cache NewInMemoryCache;
                            repo_client := None |}
                         "USD" "EUR" (Date 2024 2 10) start eq_refl))).
Defined.

End RepositoryChecks.

Section ServiceProperties.

Context {St : Type}.
Implicit Types (s : exchangeService (St := St)) (w : World St).

Lemma after_nil w : after w (ext w) [] = w.
Proof. destruct w. unfold after; cbn. by rewrite app_nil_r. Qed.

(** X12: past validation the service adds nothing but log lines.  For an
    accepted pair of currencies [GetLatestRate] and [GetHistoricalRate],
    and [GetSupportedCurrencies] always, return what the repository
    returns when run after the method's first log line, and leave the
    world the repository leaves, with one more log line when the
    repository returned an error. *)
Theorem service_adds_only_logging s base target date w :
  validateCurrencies base target = None ->
  let lrun := rr_GetLatestRate (svc_rateRepo s) base target
                (after w (ext w) [latestLog base target]) in
  let hrun := rr_GetHistoricalRate (svc_rateRepo s) base target date
                (after w (ext w) [historicalLog base target date]) in
  let crun := rr_GetSupportedCurrencies (svc_rateRepo s)
                (after w (ext w) [currenciesLog]) in
  exchangeService_GetLatestRate s base target w =
    (fst lrun, after (snd lrun) (ext (snd lrun)) (errorLog "GetLatestRate" lrun)) /\
  exchangeService_GetHistoricalRate s base target date w =
    (fst hrun, after (snd hrun) (ext (snd hrun)) (errorLog "GetHistoricalRate" hrun)) /\
  exchangeService_GetSupportedCurrencies s w =
    (fst crun, after (snd crun) (ext (snd crun))
                 (errorLog "GetSupportedCurrencies" crun)).
Proof.
  intros Hv; cbv zeta.
  unfold exchangeService_GetLatestRate, exchangeService_GetHistoricalRate,
    exchangeService_GetSupportedCurrencies, Log, bind, emit, ret, errorLog;
    rewrite Hv.
  unfold latestLog, historicalLog, currenciesLog.
  repeat match goal with
         | |- context [{| ext := ext w; trace := trace w ++ ?l |}] =>
             change {| ext := ext w; trace := trace w ++ l |}
               with (after w (ext w) l)
         end.
  repeat split.
  - destruct (rr_GetLatestRate _ _ _ _) as [[[err|rate]|] w1]; cbn [fst snd];
      by rewrite ?after_nil.
  - destruct (rr_GetHistoricalRate _ _ _ _ _) as [[[err|rate]|] w1]; cbn [fst snd];
      by rewrite ?after_nil.
  - destruct (rr_GetSupportedCurrencies _ _) as [[[err|rate]|] w1]; cbn [fst snd];
      by rewrite ?after_nil.
Qed.

(** X13: a conversion with a date that is not written YYYY-MM-DD is
    refused after validation with an error of kind validation (status
    400), and the repository is not reached: the world only gets the
    service's first log line. *)
Theorem conversion_rejects_malformed_date s req w :
  validateConversionRequest req = None ->
  ConversionRequest.Date req <> "" ->
  Parse (ConversionRequest.Date req) = None ->
  exists err,
    exchangeService_ConvertCurrency s req w =
      (Returned (inl err), after w (ext w) [convertLog req]) /\
    IsValidationError err = true /\
    GetHTTPStatusCode err = 400 /\
    Error err = "VALIDATION_ERROR: invalid date format".
Proof.
  intros Hv Hd Hp.
  exists (NewValidationError "invalid date format"
                             "date must be in YYYY-MM-DD format").
  split; [|done].
  unfold exchangeService_ConvertCurrency, Log, bind, emit, ret, after, convertLog;
    cbn.
  apply String.eqb_neq in Hd. by rewrite Hv, Hd, Hp.
Qed.

End ServiceProperties.

Section ServiceChecks.

Import Scenario.

(** X12 at dollars to euros with the upstream answering 500: the service
    returns the client's error and logs it. *)
Lemma service_adds_only_logging_witness :
  exchangeService_GetLatestRate (service failing) "USD" "EUR" start =
  (Returned (inl (errorString "API returned status 500")),
   after start asked
     [latestLog "USD" "EUR"; EvCacheGet "rate:USD:EUR:latest";
      EvProviderGetLatestRate "USD" "EUR";
      EvLog [("error", LErr (errorString "API returned status 500"));
             ("method", LStr "GetLatestRate")]]).
Proof.
  exact (proj1 (service_adds_only_logging (service failing) "USD" "EUR" 0 start
                  eq_refl)).
Defined.

(** X13 at a date written day first. *)
Lemma conversion_rejects_malformed_date_witness :
  exists err,
    exchangeService_ConvertCurrency (service quoting)
      (ConversionRequest.mk "USD" "EUR" 100 "10-02-2024") start =
      (Returned (inl err),
       after start (ext start)
         [convertLog (ConversionRequest.mk "USD" "EUR" 100 "10-02-2024")]) /\
    IsValidationError err = true /\
    GetHTTPStatusCode err = 400 /\
    Error err = "VALIDATION_ERROR: invalid date format".
Proof.
  apply conversion_rejects_malformed_date; [reflexivity|discriminate|reflexivity].
Defined.

End ServiceChecks.

Section TransportProperties.

Context {St : Type}.
Variable X : Externals St.
Implicit Types (w : World St).

Lemma iterations_after d end_ : After d end_ = true -> iterations d end_ = 0%nat.
Proof.
  unfold After, iterations, secondsPerDay. intros H%Z.ltb_lt.
  assert ((end_ - d) / 86400 < 0) by (Z.div_mod_to_equations; lia). lia.
Qed.

Lemma historicalRatesLoop_all_served (svc : ExchangeService (St := St)) req end_
    (P : Time -> HistoricalRate.t -> Prop) :
  (forall d w, exists rate w',
     es_GetHistoricalRate svc (req_From req) (req_To req) d w
       = (Returned (inr rate), w') /\ P d rate) ->
  forall n d acc w,
    n = iterations d end_ ->
    exists rates w',
      historicalRatesLoop svc req end_ n d acc w =
        (Returned {| resp_Rates := acc ++ rates; resp_Error := "" |}, w') /\
      Forall2 P (daysFrom d n) rates.
Proof.
  intros Hsvc n. induction n as [|n IH]; intros d acc w Hn.
  - exists [], w. rewrite app_nil_r. split; [done|constructor].
  - destruct (After d end_) eqn:Ha.
    { rewrite (iterations_after _ _ Ha) in Hn. discriminate. }
    rewrite (iterations_step _ _ Ha) in Hn. injection Hn as Hn.
    destruct (Hsvc d w) as (rate & w1 & Hcall & HP).
    destruct (IH (Add d (24 * Hour)) (acc ++ [rate]) w1 Hn)
      as (rates & w' & Hloop & Hall).
    exists (rate :: rates), w'. split.
    + cbn [historicalRatesLoop]. rewrite Ha. unfold bind. rewrite Hcall, Hloop.
      by rewrite <- app_assoc.
    + by constructor.
Qed.

(** X14: the time-series endpoint over a service that has a rate for
    every day answers a well-formed range with exactly one rate per day,
    from the start date to the end date included and in that order, and
    with no error. *)
Theorem time_series_one_rate_per_day (svc : ExchangeService (St := St)) req
    start end_ (P : Time -> HistoricalRate.t -> Prop) :
  parseDate (req_StartDate req) = inr start ->
  parseDate (req_EndDate req) = inr end_ ->
  Before end_ start = false ->
  (forall d w, exists rate w',
     es_GetHistoricalRate svc (req_From req) (req_To req) d w
       = (Returned (inr rate), w') /\ P d rate) ->
  forall w, exists rates w',
    makeGetHistoricalRatesEndpoint svc req w =
      (Returned {| resp_Rates := rates; resp_Error := "" |}, w') /\
    Forall2 P (daysFrom start (iterations start end_)) rates /\
    length rates = iterations start end_ /\
    (1 <= iterations start end_)%nat.
Proof.
  intros Hs He Hb Hsvc w.
  destruct (historicalRatesLoop_all_served svc req end_ P Hsvc
              (iterations start end_) start [] w eq_refl)
    as (rates & w' & Hloop & Hall).
  exists rates, w'. unfold makeGetHistoricalRatesEndpoint.
  rewrite Hs, He, Hb, Hloop. split; [done|]. split; [done|]. split.
  - apply Forall2_length in Hall. rewrite <- Hall.
    clear. generalize (iterations start end_) as n. intros n; revert start.
    induction n; intros; cbn; [done|]. by rewrite IHn.
  - rewrite (iterations_step start end_) by exact Hb. lia.
Qed.

(** X15: over the repository's own provider client the time-series
    endpoint cannot fetch: a well-formed range with accepted currencies
    whose first day is not in the cache is answered with the client's
    refusal as error and no rates, after one cache read and one provider
    call for that first day only. *)
Theorem time_series_fails_at_first_uncached_day cfg (cache : Cache St) c req
    start end_ w e s1 :
  let r := {| repo_config := cfg; repo_cache := cache;
              repo_client := Some (OpenERAPIClient_ProviderClient X c) |} in
  let svc := exchangeService_ExchangeService X
               {| svc_rateRepo := rateRepository_RateRepository r |} in
  let from := req_From req in
  let to := req_To req in
  parseDate (req_StartDate req) = inr start ->
  parseDate (req_EndDate req) = inr end_ ->
  Before end_ start = false ->
  validateCurrencies from to = None ->
  Cache_Get cache DHist (historicalKey from to start) (ext w) = (inl e, s1) ->
  makeGetHistoricalRatesEndpoint svc req w =
    (Returned {| resp_Rates := [];
                 resp_Error := "historical rates not supported by " +:+
                               oer_name c +:+ " in free tier" |},
     after w s1
       [historicalLog from to start;
        EvCacheGet (historicalKey from to start);
        EvProviderGetHistoricalRate from to start;
        EvLog [("error", LErr (unsupportedError (oer_name c)));
               ("method", LStr "GetHistoricalRate")]]).
Proof.
  cbv zeta. intros Hs He Hb Hv Hget.
  unfold makeGetHistoricalRatesEndpoint. rewrite Hs, He, Hb.
  rewrite (iterations_step start end_) by exact Hb.
  cbn [historicalRatesLoop]. change (After start end_) with (Before end_ start).
  rewrite Hb. unfold bind at 1.
  cbn [es_GetHistoricalRate exchangeService_ExchangeService].
  unfold exchangeService_GetHistoricalRate, Log, bind, emit, ret. rewrite Hv.
  cbn [svc_rateRepo rr_GetHistoricalRate rateRepository_RateRepository].
  rewrite rateRepository_GetHistoricalRate_run; cbv zeta.
  cbn [repo_cache repo_client ext]. rewrite Hget.
  cbn [OpenERAPIClient_ProviderClient pc_GetHistoricalRate
       OpenERAPIClient_GetHistoricalRate].
  unfold after, historicalLog, unsupportedError; cbn.
  by rewrite <- !app_assoc.
Qed.

End TransportProperties.

Section ParseDate.

Lemma checked_midnight y m d t : checked y m d = Some t -> t mod secondsPerDay = 0.
Proof.
  unfold checked.
  destruct ((m <=? 0) || (12 <? m)); [discriminate|].
  destruct ((d <? 1) || (daysIn m y <? d)); [discriminate|].
  intros [= <-]. unfold Date. apply Z.mod_mul. done.
Qed.

(** A date read year first is read alike from its writing with hyphens. *)
Lemma ParseYMD_canonical sep s t :
  ParseYMD sep s = Some t ->
  exists y1 y2 y3 y4 m1 m2 d1 d2,
    s = ymd y1 y2 y3 y4 m1 m2 d1 d2 sep /\
    Parse (ymd y1 y2 y3 y4 m1 m2 d1 d2 "-") = Some t /\
    t mod secondsPerDay = 0.
Proof.
  unfold ParseYMD.
  destruct (String.list_ascii_of_string s)
    as [|y1 [|y2 [|y3 [|y4 [|s1 [|m1 [|m2 [|s2 [|d1 [|d2 [|? ?]]]]]]]]]]] eqn:Hs;
    try discriminate.
  destruct (Ascii.eqb_spec s1 sep) as [->|]; [|discriminate].
  destruct (Ascii.eqb_spec s2 sep) as [->|]; [|discriminate].
  cbn [andb]. intros H.
  exists y1, y2, y3, y4, m1, m2, d1, d2.
  split; [by rewrite <- (String.string_of_list_ascii_of_string s), Hs|].
  split; [exact H|].
  destruct (num4 y1 y2 y3 y4) as [y|]; [|discriminate].
  destruct (num2 m1 m2) as [m|]; [|discriminate].
  destruct (num2 d1 d2) as [d|]; [|discriminate].
  exact (checked_midnight _ _ _ _ H).
Qed.

(** A date read day first is read alike from its writing year first. *)
Lemma ParseDMY_canonical sep s t :
  ParseDMY sep s = Some t ->
  exists y1 y2 y3 y4 m1 m2 d1 d2,
    s = dmy y1 y2 y3 y4 m1 m2 d1 d2 sep /\
    Parse (ymd y1 y2 y3 y4 m1 m2 d1 d2 "-") = Some t /\
    t mod secondsPerDay = 0.
Proof.
  unfold ParseDMY.
  destruct (String.list_ascii_of_string s)
    as [|d1 [|d2 [|s1 [|m1 [|m2 [|s2 [|y1 [|y2 [|y3 [|y4 [|? ?]]]]]]]]]]] eqn:Hs;
    try discriminate.
  destruct (Ascii.eqb_spec s1 sep) as [->|]; [|discriminate].
  destruct (Ascii.eqb_spec s2 sep) as [->|]; [|discriminate].
  cbn [andb]. intros H.
  exists y1, y2, y3, y4, m1, m2, d1, d2.
  split; [by rewrite <- (String.string_of_list_ascii_of_string s), Hs|].
  unfold Parse, ParseYMD; cbn.
  destruct (num2 d1 d2) as [d|]; [|discriminate].
  destruct (num2 m1 m2) as [m|]; [|discriminate].
  destruct (num4 y1 y2 y3 y4) as [y|]; [|discriminate].
  split; [exact H|]. exact (checked_midnight _ _ _ _ H).
Qed.

(** X16: whichever of its four layouts [parseDate] reads a date in, the
    result is a midnight in UTC, and writing it back by the layout
    2006-01-02 gives a string of ten characters that [parseDate] and
    [time.Parse] read as the same instant. *)
Theorem parseDate_canonical s t :
  parseDate s = inr t ->
  t mod secondsPerDay = 0 /\
  String.length (Format t) = 10%nat /\
  Parse (Format t) = Some t /\
  parseDate (Format t) = inr t.
Proof.
  intros H.
  assert (exists y1 y2 y3 y4 m1 m2 d1 d2,
            Parse (ymd y1 y2 y3 y4 m1 m2 d1 d2 "-") = Some t /\
            t mod secondsPerDay = 0)
    as (y1 & y2 & y3 & y4 & m1 & m2 & d1 & d2 & Hp & Hm).
  { unfold parseDate in H.
    destruct (String.eqb s ""); [discriminate|].
    destruct (ParseYMD "-" s) as [t1|] eqn:H1.
    { injection H as ->.
      apply ParseYMD_canonical in H1 as (?&?&?&?&?&?&?&?&_&?&?); eauto 12. }
    destruct (ParseYMD "/" s) as [t2|] eqn:H2.
    { injection H as ->.
      apply ParseYMD_canonical in H2 as (?&?&?&?&?&?&?&?&_&?&?); eauto 12. }
    destruct (ParseDMY "-" s) as [t3|] eqn:H3.
    { injection H as ->.
      apply ParseDMY_canonical in H3 as (?&?&?&?&?&?&?&?&_&?&?); eauto 12. }
    destruct (ParseDMY "/" s) as [t4|] eqn:H4; [|discriminate].
    injection H as ->.
    apply ParseDMY_canonical in H4 as (?&?&?&?&?&?&?&?&_&?&?); eauto 12. }
  rewrite (Format_Parse _ _ Hp).
  split; [done|]. split; [done|]. split; [done|].
  unfold parseDate. cbn [String.eqb ymd].
  unfold Parse in Hp. cbn [ymd] in Hp. by rewrite Hp.
Qed.

End ParseDate.

Section HandlerProperties.

Context {St : Type}.
Variable X : Externals St.
Implicit Types (w : World St).



End HandlerProperties.

Section TransportChecks.

Import Scenario.

(** X14 at three days of February 2024 over a provider that serves
    historical rates. *)
Lemma time_series_one_rate_per_day_witness :
  exists rates w',
    makeGetHistoricalRatesEndpoint
      (exchangeService_ExchangeService (externals quoting)
         {| svc_rateRepo := rateRepository_RateRepository archiveRepo |})
      (timeseries "2024-02-10" "2024-02-12") start =
      (Returned {| resp_Rates := rates; resp_Error := "" |}, w') /\
    Forall2 (fun d rate => HistoricalRate.Date rate = d)
            [Date 2024 2 10; Date 2024 2 11; Date 2024 2 12] rates /\
    length rates = 3%nat.
Proof.
  destruct (time_series_one_rate_per_day
              (exchangeService_ExchangeService (externals quoting)
                 {| svc_rateRepo := rateRepository_RateRepository archiveRepo |})
              (timeseries "2024-02-10" "2024-02-12")
              (Date 2024 2 10) (Date 2024 2 12)
              (fun d rate => HistoricalRate.Date rate = d)
              eq_refl eq_refl eq_refl
              (fun d w => ex_intro _ _ (ex_intro _ _ (conj eq_refl eq_refl)))
              start)
    as (rates & w' & Hrun & Hall & Hlen & _).
  exists rates, w'. split; [exact Hrun|]. split; [exact Hall|exact Hlen].
Defined.

(** X15 at the same range over the repository's own client. *)
Lemma time_series_fails_at_first_uncached_day_witness :
  makeGetHistoricalRatesEndpoint
    (exchangeService_ExchangeService (externals quoting) (service quoting))
    (timeseries "2024-02-10" "2024-02-12") start =
  (Returned {| resp_Rates := [];
               resp_Error :=
                 "historical rates not supported by open.er-api.com in free tier" |},
   after start (ext start)
     [historicalLog "USD" "EUR" (Date 2024 2 10);
      EvCacheGet "rate:USD:EUR:2024-02-10";
      EvProviderGetHistoricalRate "USD" "EUR" (Date 2024 2 10);
      EvLog [("error", LErr (unsupportedError "open.er-api.com"));
             ("method", LStr "GetHistoricalRate")]]).
Proof.
  exact (time_series_fails_at_first_uncached_day (externals quoting) config
           (InMemoryCache_Cache NewInMemoryCache) (client quoting)
           (timeseries "2024-02-10" "2024-02-12")
           (Date 2024 2 10) (Date 2024 2 12) start
           (errorString "in-memory cache not implemented") (ext start)
           eq_refl eq_refl eq_refl eq_refl eq_refl).
Defined.

(** X16 at a date written day first with slashes. *)
Lemma parseDate_canonical_witness :
  parseDate "10/02/2024" = inr (Date 2024 2 10) /\
  Format (Date 2024 2 10) = "2024-02-10" /\
  parseDate (Format (Date 2024 2 10)) = inr (Date 2024 2 10).
Proof.
  split; [reflexivity|]. split; [reflexivity|].
  exact (proj2 (proj2 (proj2 (parseDate_canonical "10/02/2024" (Date 2024 2 10)
                                eq_refl)))).
Defined.


End TransportChecks.

Section WarmCache.

Context {St : Type}.
Variable X : Externals St.
Implicit Types (w : World St).

(** X18: write-through, then read.  On the Redis cache, when the first
    call for a pair misses, fetches a rate and stores its JSON, and Redis
    then returns what was stored and the JSON decodes to the rate, a second
    call for the same pair returns the same rate from the cache without
    calling the provider. *)
Theorem second_call_is_served_from_cache cfg (rc : RedisCache (St := St)) c
    base target w rate data e s1 s2 s3 s4 :
  let r := {| repo_config := cfg; repo_cache := RedisCache_Cache X rc;
              repo_client := Some c |} in
  let key := latestKey base target in
  redis_Get (rc_client rc) key (ext w) = (inl e, s1) ->
  pc_GetLatestRate c base target s1 = (inr rate, s2) ->
  json_Marshal X (VRate rate) = inr data ->
  redis_Set (rc_client rc) key data (5 * Minute) s2 = (None, s3) ->
  redis_Get (rc_client rc) key s3 = (inr data, s4) ->
  json_Unmarshal X DRate data = inr rate ->
  exists w1 w2,
    rateRepository_GetLatestRate r base target w = (Returned (inr rate), w1) /\
    providerCalls (added w w1) = 1%nat /\
    ext w1 = s3 /\
    rateRepository_GetLatestRate r base target w1 = (Returned (inr rate), w2) /\
    providerCalls (added w1 w2) = 0%nat /\
    expirations (added w1 w2) = [].
Proof.
  cbv zeta. intros Hmiss Hfetch Hm Hset Hget Hu.
  rewrite rateRepository_GetLatestRate_run; cbv zeta.
  cbn [repo_cache repo_client RedisCache_Cache Cache_Get Cache_Set].
  unfold RedisCache_Get at 1. rewrite Hmiss, Hfetch.
  unfold RedisCache_Set. rewrite Hm, Hset.
  do 2 eexists. split; [reflexivity|]. rewrite added_after.
  split; [done|]. split; [done|].
  rewrite rateRepository_GetLatestRate_run; cbv zeta.
  cbn [repo_cache repo_client RedisCache_Cache Cache_Get Cache_Set after ext].
  unfold RedisCache_Get. rewrite Hget, Hu.
  split; [reflexivity|]. by rewrite added_after.
Qed.

(** X19: the health handler over the repository always answers 200
    "Service is healthy", with the status "healthy", the cache word
    "connected" and a map of at most two entries, one of them for the
    cache, whatever the two probes found: the repository's health check
    never returns an error. *)
Theorem health_handler_always_succeeds (r : rateRepository (St := St))
    remoteAddr w :
  let svc := exchangeService_ExchangeService X
               {| svc_rateRepo := rateRepository_RateRepository r |} in
  exists health timestamp w',
    Handlers_HealthCheck X svc remoteAddr w =
      (Returned (ReplySuccess health "Service is healthy" timestamp), w') /\
    HealthResponse.Status health = "healthy" /\
    HealthResponse.Cache health = "connected" /\
    is_Some (HealthResponse.Providers health !! "cache") /\
    (size (HealthResponse.Providers health) <= 2)%nat.
Proof.
  cbv zeta.
  unfold Handlers_HealthCheck, WriteSuccess.
  unfold bind at 1. unfold Log at 1, emit at 1. unfold bind at 1.
  cbn [es_HealthCheck exchangeService_ExchangeService].
  unfold exchangeService_HealthCheck.
  unfold bind at 1. unfold Log at 1, emit at 1. unfold bind at 1.
  cbn [svc_rateRepo rr_HealthCheck rateRepository_RateRepository].
  rewrite rateRepository_HealthCheck_run. cbn [ext].
  destruct (Cache_Ping _ _) as [perr s1].
  destruct (repo_client r) as [c|].
  - destruct (pc_HealthCheck c s1) as [herr s2].
    unfold bind, lift, ret, after; cbn.
    destruct (Now X s2) as [now s3]; cbn. destruct (Now X s3) as [now' s4]; cbn.
    do 3 eexists. split; [reflexivity|]. cbn. split; [done|]. split; [done|].
    split.
    + destruct (decide (pc_Name c = "cache")) as [->|Hne].
      * rewrite lookup_insert_eq. by eexists.
      * rewrite lookup_insert_ne by done. rewrite lookup_insert_eq. by eexists.
    + destruct (decide (pc_Name c = "cache")) as [->|Hne].
      * rewrite insert_insert_eq.
        rewrite map_size_insert_None, map_size_empty by apply lookup_empty. lia.
      * rewrite map_size_insert_None.
        -- rewrite map_size_insert_None, map_size_empty by apply lookup_empty. lia.
        -- rewrite lookup_insert_ne by done. apply lookup_empty.
  - unfold bind, lift, ret, after; cbn.
    destruct (Now X s1) as [now s3]; cbn. destruct (Now X s3) as [now' s4]; cbn.
    do 3 eexists. split; [reflexivity|]. cbn. split; [done|]. split; [done|].
    split.
    + rewrite lookup_insert_ne by done. rewrite lookup_insert_eq. by eexists.
    + rewrite map_size_insert_None.
      * rewrite map_size_insert_None, map_size_empty by apply lookup_empty. lia.
      * rewrite lookup_insert_ne by done. apply lookup_empty.
Qed.



End WarmCache.

Section WarmCacheChecks.

(** X18 at a Redis that stores, cold at first. *)
Lemma second_call_is_served_from_cache_witness :
  exists w1 w2,
    rateRepository_GetLatestRate
      {| repo_config := Scenario.config;
         repo_cache := RedisCache_Cache Stored.externals Stored.cache;
         repo_client := Some Stored.provider |} "USD" "EUR" Stored.cold
      = (Returned (inr Stored.quote), w1) /\
    providerCalls (added Stored.cold w1) = 1%nat /\
    ext w1 = {| Stored.clock := 1707523200;
                Stored.store := {[ "rate:USD:EUR:latest" := Stored.document ]} |} /\
    rateRepository_GetLatestRate
      {| repo_config := Scenario.config;
         repo_cache := RedisCache_Cache Stored.externals Stored.cache;
         repo_client := Some Stored.provider |} "USD" "EUR" w1
      = (Returned (inr Stored.quote), w2) /\
    providerCalls (added w1 w2) = 0%nat /\
    expirations (added w1 w2) = [].
Proof.
  apply (second_call_is_served_from_cache Stored.externals Scenario.config
           Stored.cache Stored.provider "USD" "EUR" Stored.cold Stored.quote
           Stored.document (errorString "redis: nil")
           (ext Stored.cold) (ext Stored.cold)
           {| Stored.clock := 1707523200;
              Stored.store := {[ "rate:USD:EUR:latest" := Stored.document ]} |}
           {| Stored.clock := 1707523200;
              Stored.store := {[ "rate:USD:EUR:latest" := Stored.document ]} |});
    vm_compute; reflexivity.
Defined.


End WarmCacheChecks.
